(** * Session authentication of the posts application (index.js)

    The development embeds the Express application of [index.js], in the
    variant that carries the authentication routes (lines 1-116; the file
    also holds an older variant without sessions, lines 120-193, which is
    embedded separately in the module [Crud]): the auth guard, the
    register, login and logout handlers, the root route and the two post
    routes.  Handlers are written
    in a small state-and-exception monad over the user table and the
    request's session object, so that the [try]/[catch] blocks and the
    early [return res.render(...)] of the source keep their shape. *)

From stdpp Require Import gmap strings list fin_maps sorting pretty.

Open Scope string_scope.

(** ** Values of the request body

    The forms post [email] and [password] as text fields: in [req.body] a
    field is either absent ([undefined]) or a string; one character stands
    for one code unit of the JavaScript string.  Arrays and objects, which
    the extended syntax of [express.urlencoded] can also produce, are not
    part of the model. *)

Definition field := option string.

(** JavaScript's [!v] on a form field: [undefined] and the empty string are
    falsy, every other string is truthy. *)
Definition falsy (v : field) : bool :=
  match v with
  | None => true
  | Some s => bool_decide (s = "")
  end.

(** [v.length] for a string field. *)
Definition js_length (v : field) : nat :=
  match v with
  | None => 0
  | Some s => String.length s
  end.

(** [!n] on a session user id: [undefined] and the number 0 are falsy. *)
Definition truthy_id (uid : option Z) : bool :=
  match uid with
  | None => false
  | Some n => negb (n =? 0)%Z
  end.

(** ** Records of the two Prisma models

    The schema is the one of AUTHENTICATION.md, step 2: [User.id] is an
    autoincrement integer and [User.email] is unique. *)

Record User := mkUser {
  user_id : Z;
  user_email : string;
  user_passwordHash : string
}.

Record Post := mkPost {
  post_id : Z;
  post_title : string;
  post_content : option string
}.

(** The user table: rows in insertion order and the autoincrement counter
    of [id]. *)
Record Db := mkDb {
  users : list User;
  next_id : Z
}.

Definition empty_db : Db := {| users := []; next_id := 1 |}.

(** ** Results of awaited calls *)

Inductive result (A : Type) : Type :=
| Ok (a : A)
| Throw.
Arguments Ok {A} a.
Arguments Throw {A}.

(** What the collaborators do during one request: which awaited call
    rejects, whether a rejected [create] had already drawn the row's id
    from the sequence, the salt [bcrypt.hash] draws, and what the two post
    queries answer.  The post table is outside the model: [post_findMany] is the
    outcome of [prisma.post.findMany(...)] and [post_findUnique] the
    outcome of [prisma.post.findUnique({ where: { id } })] for the id
    [Number(req.params.id)] of the request. *)
Record Env := mkEnv {
  findUnique_throws : bool;
  hash_throws : bool;
  create_throws : bool;
  create_draws_id : bool;
  compare_throws : bool;
  salt : string;
  post_findMany : result (list Post);
  post_findUnique : result (option Post)
}.

(** The password hasher ([bcrypt]): [hash(password, rounds)] with the salt
    made explicit, and [compare(password, digest)]. *)
Class Bcrypt := {
  bcrypt_hash_with : string → nat → string → string;
  bcrypt_compare_with : string → string → bool
}.

(** A digest produced from a password verifies against that password. *)
Definition bcrypt_sound `{Bcrypt} : Prop :=
  ∀ password rounds slt,
    bcrypt_compare_with password (bcrypt_hash_with password rounds slt) = true.

(** ** Responses *)

Inductive Locals :=
| LNone
| LError (error : string)
| LPosts (posts : list Post)
| LPost (post : Post).

Inductive Response :=
| Redirect (location : string)
| Render (view : string) (locals : Locals)
| Send (status : nat) (body : string).

Definition status_code (r : Response) : nat :=
  match r with
  | Redirect _ => 302
  | Render _ _ => 200
  | Send c _ => c
  end.

(** ** The handler monad *)

(** [req.session]: the only property the application stores is [userId]. *)
Record Session := mkSession { userId : option Z }.

(** State a handler works on: the user table and [req.session], which is
    [None] once [req.session.destroy] has run. *)
Record St := mkSt {
  db : Db;
  session : option Session
}.

Definition Handler (A : Type) : Type := St → result A * St.

Definition h_ret {A} (a : A) : Handler A := λ s, (Ok a, s).

Definition h_bind {A B} (m : Handler A) (k : A → Handler B) : Handler B :=
  λ s, match m s with
       | (Ok a, s') => k a s'
       | (Throw, s') => (Throw, s')
       end.

Definition h_throw {A} : Handler A := λ s, (Throw, s).

(** [try { m } catch (e) { h }]: the state reached when [m] threw is kept. *)
Definition try_catch {A} (m h : Handler A) : Handler A :=
  λ s, match m s with
       | (Ok a, s') => (Ok a, s')
       | (Throw, s') => h s'
       end.

Declare Scope handler_scope.
Delimit Scope handler_scope with handler.
Notation "'await' x '<-' m ';' k" := (h_bind m (λ x, k))
  (at level 10, x name, m at level 100, k at level 200) : handler_scope.
Notation "m ';;;' k" := (h_bind m (λ _, k))
  (at level 100, k at level 200, right associativity) : handler_scope.

(** ** The calls of the handlers *)

Definition res_redirect (location : string) : Handler Response :=
  h_ret (Redirect location).

Definition res_render (view : string) (locals : Locals) : Handler Response :=
  h_ret (Render view locals).

Definition res_status_send (status : nat) (body : string) : Handler Response :=
  h_ret (Send status body).

Definition get_session_userId : Handler (option Z) :=
  λ s, match session s with
       | Some ss => (Ok (userId ss), s)
       | None => h_throw s
       end.

Definition set_session_userId (uid : Z) : Handler unit :=
  λ s, match session s with
       | Some _ => (Ok (), {| db := db s; session := Some {| userId := Some uid |} |})
       | None => h_throw s
       end.

(** [req.session.destroy(cb)]: the request loses its session object. *)
Definition session_destroy : Handler unit :=
  λ s, match session s with
       | Some _ => (Ok (), {| db := db s; session := None |})
       | None => h_throw s
       end.

Definition find_by_email (email : string) (us : list User) : option User :=
  find (λ u, bool_decide (user_email u = email)) us.

(** [prisma.user.findUnique({ where: { email } })]. *)
Definition prisma_user_findUnique (env : Env) (email : field)
  : Handler (option User) :=
  λ s, if findUnique_throws env then h_throw s
       else match email with
            | None => h_throw s
            | Some e => (Ok (find_by_email e (users (db s))), s)
            end.

(** The state after an insert that the database rejected: the rows are as
    before; an id that was drawn from the sequence is not given back, so
    the counter stays advanced. *)
Definition after_rejected_create (drawn : bool) (s : St) : St :=
  {| db := {| users := users (db s);
              next_id := if drawn then next_id (db s) + 1 else next_id (db s) |};
     session := session s |}.

(** [prisma.user.create({ data: { email, passwordHash } })]: the row gets
    the next id.  A rejected call leaves no row; it has drawn the id when
    the database got as far as the insert ([create_draws_id]), as it has
    when the [@unique] constraint on [email] rejects a second row with the
    same email. *)
Definition prisma_user_create (env : Env) (email : field) (passwordHash : string)
  : Handler User :=
  λ s, if create_throws env then
         h_throw (after_rejected_create (create_draws_id env) s)
       else match email with
            | None => h_throw s
            | Some e =>
                match find_by_email e (users (db s)) with
                | Some _ => h_throw (after_rejected_create true s)
                | None =>
                    let u := {| user_id := next_id (db s);
                                user_email := e;
                                user_passwordHash := passwordHash |} in
                    (Ok u, {| db := {| users := users (db s) ++ [u];
                                       next_id := next_id (db s) + 1 |};
                              session := session s |})
                end
            end.

Section Handlers.
Context `{Bcrypt}.

(** [bcrypt.hash(password, rounds)]. *)
Definition bcrypt_hash (env : Env) (password : field) (rounds : nat)
  : Handler string :=
  λ s, if hash_throws env then h_throw s
       else match password with
            | None => h_throw s
            | Some p => (Ok (bcrypt_hash_with p rounds (salt env)), s)
            end.

(** [bcrypt.compare(password, digest)]. *)
Definition bcrypt_compare (env : Env) (password : field) (digest : string)
  : Handler bool :=
  λ s, if compare_throws env then h_throw s
       else match password with
            | None => h_throw s
            | Some p => (Ok (bcrypt_compare_with p digest), s)
            end.

Definition prisma_post_findMany (env : Env) : Handler (list Post) :=
  λ s, (post_findMany env, s).

Definition prisma_post_findUnique (env : Env) : Handler (option Post) :=
  λ s, (post_findUnique env, s).

Local Open Scope handler_scope.

(** ** The auth guard (index.js 41-44) *)
Definition requireAuth (next : Handler Response) : Handler Response :=
  await uid <- get_session_userId;
  if negb (truthy_id uid) then res_redirect "/login" else next.

(** ** The routes (index.js 47-112) *)

Definition get_root : Handler Response := res_redirect "/posts".

Definition get_register : Handler Response := res_render "auth/register" LNone.

Definition post_register (env : Env) (email password : field)
  : Handler Response :=
  if falsy email || falsy password then
    res_render "auth/register" (LError "Email and password required")
  else if (js_length password <? 6)%nat then
    res_render "auth/register" (LError "Password must be at least 6 characters")
  else
    try_catch
      (await existing <- prisma_user_findUnique env email;
       match existing with
       | Some _ => res_render "auth/register" (LError "Email already registered")
       | None =>
           await passwordHash <- bcrypt_hash env password 10;
           await user <- prisma_user_create env email passwordHash;
           set_session_userId (user_id user);;;
           res_redirect "/posts"
       end)
      (res_render "auth/register" (LError "Registration failed")).

Definition get_login : Handler Response := res_render "auth/login" LNone.

Definition post_login (env : Env) (email password : field)
  : Handler Response :=
  if falsy email || falsy password then
    res_render "auth/login" (LError "Email and password required")
  else
    try_catch
      (await user <- prisma_user_findUnique env email;
       match user with
       | None => res_render "auth/login" (LError "Invalid email or password")
       | Some u =>
           await ok <- bcrypt_compare env password (user_passwordHash u);
           if negb ok then
             res_render "auth/login" (LError "Invalid email or password")
           else
             (set_session_userId (user_id u);;;
              res_redirect "/posts")
       end)
      (res_render "auth/login" (LError "Login failed")).

Definition post_logout : Handler Response :=
  session_destroy;;;
  res_redirect "/login".

Definition get_posts (env : Env) : Handler Response :=
  await posts <- prisma_post_findMany env;
  res_render "posts/index" (LPosts posts).

Definition get_posts_id (env : Env) : Handler Response :=
  await post <- prisma_post_findUnique env;
  match post with
  | None => res_status_send 404 "Post not found"
  | Some p => res_render "posts/show" (LPost p)
  end.

End Handlers.

(** ** Session store *)

(** [cookie.maxAge] of the session configuration (index.js 30), in
    milliseconds: seven days. *)
Definition maxAge : Z := 7 * 24 * 60 * 60 * 1000.

(** Payload kept for a token: the user id and the absolute expiry time. *)
Record SessionEntry := mkEntry {
  entry_userId : Z;
  expiresAt : Z
}.

Module SessionStore.

(** Modelled from the spec: the session store, which the sources only
    configure ([app.use(session({...}))], index.js 23-32) and whose code
    is the in-memory store of express-session.  [resolve] returns the user
    id iff the token exists and [now < expiresAt]; it does not tell an
    unknown token from an expired one. *)
Definition resolve (store : gmap string SessionEntry) (now : Z) (token : string)
  : option Z :=
  match store !! token with
  | Some e => if bool_decide (now < expiresAt e)%Z then Some (entry_userId e) else None
  | None => None
  end.

(** Modelled from the spec: the session store's [destroy] removes the
    mapping; destroying an unknown token changes nothing. *)
Definition destroy (store : gmap string SessionEntry) (token : string)
  : gmap string SessionEntry :=
  delete token store.

(** Modelled from the spec: the session store's [create] stores
    [token -> {userId, expiresAt = now + TTL}]; the random token is drawn
    by the caller. *)
Definition create (store : gmap string SessionEntry) (now : Z) (token : string)
    (uid : Z) : gmap string SessionEntry :=
  <[token := {| entry_userId := uid; expiresAt := (now + maxAge)%Z |}]> store.

End SessionStore.

(** ** Requests and the server *)

Inductive Route :=
| GET_root
| GET_register
| POST_register
| GET_login
| POST_login
| POST_logout
| GET_posts
| GET_posts_id.

(** One HTTP request: the route, the session cookie, the time of arrival,
    the token the session middleware would draw for a new session, the two
    form fields and the behaviour of the collaborators. *)
Record Request := mkRequest {
  route : Route;
  cookie : option string;
  now : Z;
  fresh_token : string;
  body_email : field;
  body_password : field;
  env : Env
}.

(** The form view of an auth route. *)
Definition form_view (r : Route) : string :=
  match r with
  | POST_register => "auth/register"
  | _ => "auth/login"
  end.

(** Process-wide state: the user table and the session store. *)
Record Server := mkServer {
  srv_db : Db;
  sessions : gmap string SessionEntry
}.

Definition empty_server : Server := {| srv_db := empty_db; sessions := ∅ |}.

(** What the client sees: the handler's response ([Throw] when the handler
    rejected without answering), [res.locals.currentUser] and the session
    cookie set by the response, which is sent when the handler changed the
    session. *)
Record HttpResponse := mkHttp {
  response : result Response;
  currentUser : option Z;
  set_cookie : option string
}.

(** Modelled from the spec: the session middleware, provided by
    express-session.  It resolves the request's cookie; when that yields a
    user id the request works on that session, otherwise on a new, empty
    session under a newly drawn token. *)
Definition load_session (srv : Server) (rq : Request) : string * Session :=
  match cookie rq with
  | Some t =>
      match SessionStore.resolve (sessions srv) (now rq) t with
      | Some uid => (t, {| userId := Some uid |})
      | None => (fresh_token rq, {| userId := None |})
      end
  | None => (fresh_token rq, {| userId := None |})
  end.

(** Modelled from the spec: the end of the session middleware.  A destroyed
    session is removed from the store; a session that carries a user id is
    stored under its token with a new expiry; an empty session is not
    stored ([saveUninitialized: false], index.js 26). *)
Definition commit_session (store : gmap string SessionEntry) (now : Z)
    (sid : string) (after : option Session) : gmap string SessionEntry :=
  match after with
  | None => SessionStore.destroy store sid
  | Some s =>
      match userId s with
      | Some uid => SessionStore.create store now sid uid
      | None => store
      end
  end.

(** Modelled from the spec: the cookie of the session middleware.  The
    response carries the session token when the handler changed the
    session (a login or a registration), and no cookie otherwise. *)
Definition session_cookie (sid : string) (before : Session)
    (after : option Session) : option string :=
  match after with
  | Some s' => if bool_decide (userId s' = userId before) then None else Some sid
  | None => None
  end.

(** [res.locals.currentUser] (index.js 35-38). *)
Definition expose_currentUser (s : Session) : option Z :=
  if truthy_id (userId s) then userId s else None.

Section Application.
Context `{Bcrypt}.

(** Route table of the application (index.js 47-112). *)
Definition app (rq : Request) : Handler Response :=
  match route rq with
  | GET_root => get_root
  | GET_register => get_register
  | POST_register => post_register (env rq) (body_email rq) (body_password rq)
  | GET_login => get_login
  | POST_login => post_login (env rq) (body_email rq) (body_password rq)
  | POST_logout => post_logout
  | GET_posts => get_posts (env rq)
  | GET_posts_id => requireAuth (get_posts_id (env rq))
  end.

(** The state the route handler starts from: the user table and the
    session the middleware attached to the request. *)
Definition init_state (srv : Server) (rq : Request) : St :=
  {| db := srv_db srv; session := Some (load_session srv rq).2 |}.

(** One request through the middleware stack and the route table.  When the
    handler rejects without answering, the response never ends and the
    session is not written back. *)
Definition handle (srv : Server) (rq : Request) : HttpResponse * Server :=
  let sid := (load_session srv rq).1 in
  let sess := (load_session srv rq).2 in
  let res := app rq (init_state srv rq) in
  let store' :=
    match res.1 with
    | Ok _ => commit_session (sessions srv) (now rq) sid (session res.2)
    | Throw => sessions srv
    end in
  ({| response := res.1;
      currentUser := expose_currentUser sess;
      set_cookie :=
        match res.1 with
        | Ok _ => session_cookie sid sess (session res.2)
        | Throw => None
        end |},
   {| srv_db := db res.2; sessions := store' |}).

(** The state in which a successful registration of [e] with password [p]
    leaves the handler. *)
Definition registered_state (env : Env) (e p : string) (st : St) : St :=
  {| db := {| users := users (db st) ++
                [{| user_id := next_id (db st); user_email := e;
                    user_passwordHash := bcrypt_hash_with p 10 (salt env) |}];
              next_id := next_id (db st) + 1 |};
     session := Some {| userId := Some (next_id (db st)) |} |}.

Definition step (srv : Server) (rq : Request) : Server := (handle srv rq).2.

(** The server after a sequence of requests. *)
Fixpoint run (srv : Server) (rqs : list Request) : Server :=
  match rqs with
  | [] => srv
  | rq :: rest => run (step srv rq) rest
  end.

End Application.

(** ** A concrete hasher for evaluating the handlers

    The digest is the first character of the salt followed by the password;
    [compare] drops that character and compares the rest. *)

Definition demo_hash (password : string) (rounds : nat) (slt : string) : string :=
  match slt with
  | EmptyString => String (Ascii.ascii_of_nat 36) password
  | String c _ => String c password
  end.

Definition demo_compare (password digest : string) : bool :=
  match digest with
  | EmptyString => false
  | String _ rest => bool_decide (password = rest)
  end.

Definition demo_bcrypt : Bcrypt :=
  {| bcrypt_hash_with := demo_hash; bcrypt_compare_with := demo_compare |}.

(** An environment in which every awaited call completes and the post
    table is empty. *)
Definition calm_env : Env :=
  {| findUnique_throws := false; hash_throws := false; create_throws := false;
     create_draws_id := false; compare_throws := false; salt := "s";
     post_findMany := Ok []; post_findUnique := Ok None |}.

(** A request without cookie and without form fields. *)
Definition bare_request (r : Route) : Request :=
  {| route := r; cookie := None; now := 0; fresh_token := "t1";
     body_email := None; body_password := None; env := calm_env |}.

(** A form post of [email] and [password] without cookie. *)
Definition form_request (r : Route) (email password : string) : Request :=
  {| route := r; cookie := None; now := 0; fresh_token := "t1";
     body_email := Some email; body_password := Some password; env := calm_env |}.

(** The same request sent with a session cookie at a later time, for
    which the middleware would draw another token. *)
Definition with_cookie (t : string) (time : Z) (fresh : string) (rq : Request)
  : Request :=
  {| route := route rq; cookie := Some t; now := time; fresh_token := fresh;
     body_email := body_email rq; body_password := body_password rq;
     env := env rq |}.

(** The same request in an environment where creating the user row
    rejects after the database has drawn the row's id. *)
Definition with_failing_create (rq : Request) : Request :=
  {| route := route rq; cookie := cookie rq; now := now rq;
     fresh_token := fresh_token rq;
     body_email := body_email rq; body_password := body_password rq;
     env := {| findUnique_throws := false; hash_throws := false;
               create_throws := true; create_draws_id := true;
               compare_throws := false;
               salt := salt (env rq);
               post_findMany := post_findMany (env rq);
               post_findUnique := post_findUnique (env rq) |} |}.

(** The server after alice has registered: one user row and her session
    under the token "t1". *)
Definition alice_server : Server :=
  @step demo_bcrypt empty_server
    (form_request POST_register "alice@example.com" "secret1").

(** ** Invariants of the server *)

(** The user table is well formed: emails and ids are pairwise distinct and
    every id lies between 1 and the autoincrement counter. *)
Definition users_ok (d : Db) : Prop :=
  NoDup (user_email <$> users d) ∧
  NoDup (user_id <$> users d) ∧
  Forall (λ u, (1 ≤ user_id u < next_id d)%Z) (users d) ∧
  (1 ≤ next_id d)%Z.

(** Every stored session belongs to a user of the table. *)
Definition sessions_ok (srv : Server) : Prop :=
  ∀ t e, sessions srv !! t = Some e →
         ∃ u, u ∈ users (srv_db srv) ∧ user_id u = entry_userId e.

(** ** The posts application without sessions (index.js 120-193)

    The second variant of [index.js] has no session and no user: it
    serves the post table with create, read, update and delete routes.
    Here the post table is part of the model. *)

Module Crud.

(** The value of [Number(req.params.id)]: an integer or NaN.  A route
    parameter that [Number] turns into a fraction or an infinity is not
    part of the model. *)
Inductive js_number :=
| JsInt (z : Z)
| JsNaN.

(** The template literal [`${id}`]; the decimal digits are those of
    JavaScript for every integer a row id can be. *)
Definition js_to_string (n : js_number) : string :=
  match n with
  | JsInt z => pretty z
  | JsNaN => "NaN"
  end.

(** A row of the post table: the columns the handlers name and the
    creation time, which the database sets when the row is inserted. *)
Record Row := mkRow {
  row_post : Post;
  createdAt : Z
}.

(** The post table: rows in insertion order and the autoincrement counter
    of [id]. *)
Record Table := mkTable {
  rows : list Row;
  next_post_id : Z
}.

Definition empty_table : Table := {| rows := []; next_post_id := 1 |}.

Definition row_id (r : Row) : Z := post_id (row_post r).

(** The values of the [Int] column [id]: 32-bit signed integers. *)
Definition int4 (z : Z) : bool :=
  bool_decide (-2147483648 ≤ z ≤ 2147483647)%Z.

Inductive Route :=
| GET_root
| GET_posts
| GET_posts_new
| POST_posts
| GET_posts_id
| GET_posts_id_edit
| POST_posts_id
| POST_posts_id_delete.

(** One HTTP request: the route, [Number(req.params.id)], the two form
    fields, the time of arrival and whether the request's query is
    rejected by the database. *)
Record Request := mkRequest {
  route : Route;
  params_id : js_number;
  body_title : field;
  body_content : field;
  now : Z;
  query_throws : bool
}.

Definition Query (A : Type) : Type := Table → result A * Table.

Definition q_ret {A} (a : A) : Query A := λ t, (Ok a, t).

Definition q_bind {A B} (m : Query A) (k : A → Query B) : Query B :=
  λ t, match m t with
       | (Ok a, t') => k a t'
       | (Throw, t') => (Throw, t')
       end.

Definition q_throw {A} : Query A := λ t, (Throw, t).

Declare Scope crud_scope.
Delimit Scope crud_scope with crud.
Notation "'await' x '<-' m ';' k" := (q_bind m (λ x, k))
  (at level 10, x name, m at level 100, k at level 200) : crud_scope.

Definition redirect (location : string) : Query Response :=
  q_ret (Redirect location).

Definition render (view : string) (locals : Locals) : Query Response :=
  q_ret (Render view locals).

Definition status_send (status : nat) (body : string) : Query Response :=
  q_ret (Send status body).

Definition find_by_id (z : Z) (rs : list Row) : option Row :=
  find (λ r, bool_decide (row_id r = z)) rs.

(** [orderBy: { createdAt: 'desc' }]. *)
Definition newest_first (a b : Row) : Prop := (createdAt b ≤ createdAt a)%Z.

#[global] Instance newest_first_dec : RelDecision newest_first.
Proof. intros a b. unfold newest_first. apply _. Defined.

(** The [where: { id }] of a query: the id must be a 32-bit integer,
    otherwise the query is rejected. *)
Definition where_id (n : js_number) : option Z :=
  match n with
  | JsInt z => if int4 z then Some z else None
  | JsNaN => None
  end.

(** [prisma.post.findMany({ orderBy: { createdAt: 'desc' } })].  The
    database does not fix the order of rows with equal [createdAt]; the
    merge sort picks one. *)
Definition prisma_post_findMany (rq : Request) : Query (list Row) :=
  λ t, if query_throws rq then q_throw t
       else (Ok (merge_sort newest_first (rows t)), t).

(** [prisma.post.findUnique({ where: { id } })]. *)
Definition prisma_post_findUnique (rq : Request) (id : js_number)
  : Query (option Row) :=
  λ t, if query_throws rq then q_throw t
       else match where_id id with
            | None => q_throw t
            | Some z => (Ok (find_by_id z (rows t)), t)
            end.

(** [prisma.post.create({ data: { title, content } })]: [title] is a
    required column, [content] an optional one; the row gets the next id
    and the time of the insertion. *)
Definition prisma_post_create (rq : Request) (title content : field)
  : Query Row :=
  λ t, if query_throws rq then q_throw t
       else match title with
            | None => q_throw t
            | Some ti =>
                if int4 (next_post_id t) then
                  let r := {| row_post := {| post_id := next_post_id t;
                                             post_title := ti;
                                             post_content := content |};
                              createdAt := now rq |} in
                  (Ok r, {| rows := rows t ++ [r];
                            next_post_id := next_post_id t + 1 |})
                else q_throw t
            end.

(** The [data: { title, content }] of an update: a field that is
    [undefined] is left as it is. *)
Definition set_fields (title content : field) (r : Row) : Row :=
  {| row_post :=
       {| post_id := row_id r;
          post_title := match title with
                        | Some ti => ti
                        | None => post_title (row_post r)
                        end;
          post_content := match content with
                          | Some c => Some c
                          | None => post_content (row_post r)
                          end |};
     createdAt := createdAt r |}.

(** [prisma.post.update({ where: { id }, data: { title, content } })]: the
    call is rejected when no row has the id. *)
Definition prisma_post_update (rq : Request) (id : js_number)
    (title content : field) : Query Row :=
  λ t, if query_throws rq then q_throw t
       else match where_id id with
            | None => q_throw t
            | Some z =>
                match find_by_id z (rows t) with
                | None => q_throw t
                | Some r =>
                    (Ok (set_fields title content r),
                     {| rows := (λ x, if bool_decide (row_id x = z)
                                      then set_fields title content x
                                      else x) <$> rows t;
                        next_post_id := next_post_id t |})
                end
            end.

(** [prisma.post.delete({ where: { id } })]: the call is rejected when no
    row has the id. *)
Definition prisma_post_delete (rq : Request) (id : js_number) : Query Row :=
  λ t, if query_throws rq then q_throw t
       else match where_id id with
            | None => q_throw t
            | Some z =>
                match find_by_id z (rows t) with
                | None => q_throw t
                | Some r =>
                    (Ok r, {| rows := filter (λ x, row_id x ≠ z) (rows t);
                              next_post_id := next_post_id t |})
                end
            end.

Local Open Scope crud_scope.

(** *** The routes (index.js 136-189) *)

Definition get_root : Query Response := redirect "/posts".

Definition get_posts (rq : Request) : Query Response :=
  await posts <- prisma_post_findMany rq;
  render "posts/index" (LPosts (row_post <$> posts)).

Definition get_posts_new : Query Response := render "posts/new" LNone.

Definition post_posts (rq : Request) : Query Response :=
  let title := body_title rq in
  let content := body_content rq in
  await _created <- prisma_post_create rq title content;
  redirect "/posts".

Definition get_posts_id (rq : Request) : Query Response :=
  let id := params_id rq in
  await post <- prisma_post_findUnique rq id;
  match post with
  | None => status_send 404 "Post not found"
  | Some p => render "posts/show" (LPost (row_post p))
  end.

Definition get_posts_id_edit (rq : Request) : Query Response :=
  let id := params_id rq in
  await post <- prisma_post_findUnique rq id;
  match post with
  | None => status_send 404 "Post not found"
  | Some p => render "posts/edit" (LPost (row_post p))
  end.

Definition post_posts_id (rq : Request) : Query Response :=
  let id := params_id rq in
  let title := body_title rq in
  let content := body_content rq in
  await _updated <- prisma_post_update rq id title content;
  redirect ("/posts/" +:+ js_to_string id).

Definition post_posts_id_delete (rq : Request) : Query Response :=
  let id := params_id rq in
  await _deleted <- prisma_post_delete rq id;
  redirect "/posts".

(** Route table of the variant. *)
Definition app (rq : Request) : Query Response :=
  match route rq with
  | GET_root => get_root
  | GET_posts => get_posts rq
  | GET_posts_new => get_posts_new
  | POST_posts => post_posts rq
  | GET_posts_id => get_posts_id rq
  | GET_posts_id_edit => get_posts_id_edit rq
  | POST_posts_id => post_posts_id rq
  | POST_posts_id_delete => post_posts_id_delete rq
  end.

(** What the client gets: the response, or [Throw] when the handler
    rejected without answering. *)
Definition respond (t : Table) (rq : Request) : result Response := (app rq t).1.

Definition step (t : Table) (rq : Request) : Table := (app rq t).2.

Fixpoint run (t : Table) (rqs : list Request) : Table :=
  match rqs with
  | [] => t
  | rq :: rest => run (step t rq) rest
  end.

(** The table is well formed: ids are pairwise distinct and lie between 1
    and the autoincrement counter. *)
Definition table_ok (t : Table) : Prop :=
  NoDup (row_id <$> rows t) ∧
  Forall (λ r, (1 ≤ row_id r < next_post_id t)%Z) (rows t) ∧
  (1 ≤ next_post_id t)%Z.

(** A request that reads the post with id [z]. *)
Definition show_request (z : Z) : Request :=
  {| route := GET_posts_id; params_id := JsInt z; body_title := None;
     body_content := None; now := 0; query_throws := false |}.

(** A form post of [title] and [content] to [r] for the id [n] at [time]. *)
Definition form_request (r : Route) (n : js_number) (title content : string)
    (time : Z) : Request :=
  {| route := r; params_id := n; body_title := Some title;
     body_content := Some content; now := time; query_throws := false |}.

End Crud.

(** The same request in an environment where the post queries reject. *)
Definition with_failing_posts (rq : Request) : Request :=
  {| route := route rq; cookie := cookie rq; now := now rq;
     fresh_token := fresh_token rq;
     body_email := body_email rq; body_password := body_password rq;
     env := {| findUnique_throws := findUnique_throws (env rq);
               hash_throws := hash_throws (env rq);
               create_throws := create_throws (env rq);
               create_draws_id := create_draws_id (env rq);
               compare_throws := compare_throws (env rq);
               salt := salt (env rq);
               post_findMany := Throw;
               post_findUnique := Throw |} |}.

(** A post table after three posts have been created, the third with an
    earlier creation time than the second. *)
Definition crud_demo_table : Crud.Table :=
  Crud.run Crud.empty_table
    [Crud.form_request Crud.POST_posts Crud.JsNaN "first" "a" 10;
     Crud.form_request Crud.POST_posts Crud.JsNaN "second" "b" 20;
     Crud.form_request Crud.POST_posts Crud.JsNaN "third" "c" 15].

(** * Properties *)

Ltac unfold_handlers :=
  unfold post_register, post_login, post_logout, get_posts, get_posts_id,
    get_root, get_register, get_login, requireAuth, try_catch, h_bind, h_ret,
    res_render, res_redirect, res_status_send, prisma_user_findUnique,
    prisma_user_create, bcrypt_hash, bcrypt_compare, prisma_post_findMany,
    prisma_post_findUnique, set_session_userId, get_session_userId,
    session_destroy in *.

Lemma falsy_false (v : field) :
  falsy v = false → ∃ s, v = Some s ∧ s ≠ "".
Proof.
  destruct v as [s|]; simpl; [|done].
  intros Hs. exists s. split; [done|]. by apply bool_decide_eq_false in Hs.
Qed.

Lemma falsy_some (s : string) : s ≠ "" → falsy (Some s) = false.
Proof. intros Hs. simpl. by apply bool_decide_eq_false. Qed.

Lemma find_by_email_app_Some email us u v :
  find_by_email email us = Some u → find_by_email email (us ++ [v]) = Some u.
Proof.
  unfold find_by_email. induction us as [|w us IH]; simpl; [done|].
  destruct (bool_decide (user_email w = email)); [done|]. apply IH.
Qed.

Lemma find_by_email_app_None email us v :
  find_by_email email us = None →
  find_by_email email (us ++ [v]) =
    if bool_decide (user_email v = email) then Some v else None.
Proof.
  unfold find_by_email. induction us as [|w us IH]; simpl; [done|].
  destruct (bool_decide (user_email w = email)); [done|]. apply IH.
Qed.

Lemma find_by_email_Some email us u :
  find_by_email email us = Some u → user_email u = email ∧ u ∈ us.
Proof.
  unfold find_by_email. intros Hf. apply find_some in Hf as [Hin Hb].
  apply bool_decide_eq_true in Hb. split; [done|]. by apply list_elem_of_In.
Qed.

Lemma find_by_email_None email us :
  find_by_email email us = None ↔ email ∉ user_email <$> us.
Proof.
  unfold find_by_email. induction us as [|w us IH]; simpl.
  - split; [intros _; apply not_elem_of_nil|done].
  - rewrite not_elem_of_cons. case_bool_decide as Hw.
    + split; [done|]. intros [Hne _]. by destruct Hne.
    + rewrite IH. split; [intros ?; split; [congruence|done]|by intros [_ ?]].
Qed.

Section Properties.
Context `{Bcrypt}.

(** Every run of the register handler on a request that has a session
    answers, and either re-renders the form with an error, leaving the
    state alone (apart from the id a rejected insert has drawn), or
    creates the user, logs them in and redirects. *)
Lemma post_register_outcome env email password st :
  is_Some (session st) →
  (∃ msg, post_register env email password st =
            (Ok (Render "auth/register" (LError msg)), st)) ∨
  (∃ e p, email = Some e ∧ password = Some p ∧ e ≠ "" ∧
          (6 ≤ String.length p)%nat ∧
          find_by_email e (users (db st)) = None ∧
          findUnique_throws env = false ∧ hash_throws env = false ∧
          create_throws env = true ∧
          post_register env email password st =
            (Ok (Render "auth/register" (LError "Registration failed")),
             after_rejected_create (create_draws_id env) st)) ∨
  (∃ e p, email = Some e ∧ password = Some p ∧ e ≠ "" ∧
          (6 ≤ String.length p)%nat ∧
          find_by_email e (users (db st)) = None ∧
          findUnique_throws env = false ∧ hash_throws env = false ∧
          create_throws env = false ∧
          post_register env email password st =
            (Ok (Redirect "/posts"), registered_state env e p st)).
Proof.
  intros [ss Hss]. unfold post_register.
  destruct (falsy email) eqn:He; simpl; [left; by eexists|].
  destruct (falsy password) eqn:Hp; simpl; [left; by eexists|].
  apply falsy_false in He as (e & -> & He), Hp as (p & -> & Hp).
  simpl. destruct (String.length p <? 6)%nat eqn:Hlen; [left; by eexists|].
  apply Nat.ltb_ge in Hlen. unfold_handlers.
  destruct (findUnique_throws env) eqn:Hfu; [left; by eexists|].
  destruct (find_by_email e (users (db st))) eqn:Hfind; [left; by eexists|].
  destruct (hash_throws env) eqn:Hh; [left; by eexists|].
  destruct (create_throws env) eqn:Hc.
  - right. left. exists e, p. by repeat split.
  - rewrite Hfind, Hss. right. right. exists e, p. by repeat split.
Qed.

(** The same for the login handler. *)
Lemma post_login_outcome env email password st :
  is_Some (session st) →
  (∃ msg, post_login env email password st =
            (Ok (Render "auth/login" (LError msg)), st)) ∨
  (∃ e p u, email = Some e ∧ password = Some p ∧
            find_by_email e (users (db st)) = Some u ∧
            bcrypt_compare_with p (user_passwordHash u) = true ∧
            findUnique_throws env = false ∧ compare_throws env = false ∧
            post_login env email password st =
              (Ok (Redirect "/posts"),
               {| db := db st; session := Some {| userId := Some (user_id u) |} |})).
Proof.
  intros [ss Hss]. unfold post_login.
  destruct (falsy email) eqn:He; simpl; [left; by eexists|].
  destruct (falsy password) eqn:Hp; simpl; [left; by eexists|].
  apply falsy_false in He as (e & -> & He), Hp as (p & -> & Hp).
  unfold_handlers.
  destruct (findUnique_throws env) eqn:Hfu; [left; by eexists|].
  destruct (find_by_email e (users (db st))) as [u|] eqn:Hfind; [|left; by eexists].
  destruct (compare_throws env) eqn:Hc; [left; by eexists|].
  destruct (bcrypt_compare_with p (user_passwordHash u)) eqn:Hok; simpl;
    [|left; by eexists].
  rewrite Hss. right. exists e, p, u. by repeat split.
Qed.


(** ** The request pipeline *)

Lemma load_session_anonymous srv rq :
  userId (load_session srv rq).2 = None →
  (load_session srv rq).1 = fresh_token rq.
Proof.
  unfold load_session. destruct (cookie rq) as [t|]; [|done].
  by destruct (SessionStore.resolve _ _ _).
Qed.

Lemma load_session_resolved srv rq uid :
  userId (load_session srv rq).2 = Some uid →
  ∃ t, cookie rq = Some t ∧ (load_session srv rq).1 = t ∧
       SessionStore.resolve (sessions srv) (now rq) t = Some uid.
Proof.
  unfold load_session. destruct (cookie rq) as [t|]; [|done].
  destruct (SessionStore.resolve _ _ _) as [u|] eqn:Hr; [|done].
  simpl. intros [= ->]. by exists t.
Qed.

(** A handler that answers and leaves its state alone changes nothing for
    an anonymous caller: no row, no session, no cookie. *)
Lemma handle_unchanged_state srv rq r :
  app rq (init_state srv rq) = (Ok r, init_state srv rq) →
  response (handle srv rq).1 = Ok r ∧
  set_cookie (handle srv rq).1 = None ∧
  srv_db (step srv rq) = srv_db srv ∧
  (userId (load_session srv rq).2 = None → step srv rq = srv).
Proof.
  intros Happ. unfold step, handle, session_cookie. rewrite Happ. simpl.
  split; [done|]. split; [by rewrite bool_decide_eq_true_2|].
  split; [done|]. intros Hanon. rewrite Hanon. by destruct srv.
Qed.

Lemma handle_unchanged_http srv rq r :
  app rq (init_state srv rq) = (Ok r, init_state srv rq) →
  (handle srv rq).1 =
    {| response := Ok r;
       currentUser := expose_currentUser (load_session srv rq).2;
       set_cookie := None |}.
Proof.
  intros Happ. unfold handle, session_cookie. rewrite Happ. simpl.
  by rewrite bool_decide_eq_true_2.
Qed.

(** ** The auth guard *)

(** With an empty identity the guard answers with the redirect and the
    guarded handler is not run: the outcome does not depend on it. *)
Lemma requireAuth_anonymous next st ss :
  session st = Some ss → truthy_id (userId ss) = false →
  requireAuth next st = (Ok (Redirect "/login"), st).
Proof. intros Hs Hu. unfold_handlers. by rewrite Hs, Hu. Qed.

(** With an identity the guard runs the guarded handler unchanged. *)
Lemma requireAuth_authenticated next st ss :
  session st = Some ss → truthy_id (userId ss) = true →
  requireAuth next st = next st.
Proof. intros Hs Hu. unfold_handlers. by rewrite Hs, Hu. Qed.

(** GET /posts/:id behind the guard. *)
Lemma get_posts_id_guarded srv rq :
  route rq = GET_posts_id →
  (userId (load_session srv rq).2 = None →
     response (handle srv rq).1 = Ok (Redirect "/login") ∧ step srv rq = srv) ∧
  (truthy_id (userId (load_session srv rq).2) = true →
     response (handle srv rq).1 = (get_posts_id (env rq) (init_state srv rq)).1).
Proof.
  intros Hroute. split.
  - intros Hanon.
    assert (app rq (init_state srv rq) = (Ok (Redirect "/login"), init_state srv rq))
      as Happ.
    { unfold app. rewrite Hroute.
      apply (requireAuth_anonymous _ _ (load_session srv rq).2); [done|].
      by rewrite Hanon. }
    destruct (handle_unchanged_state _ _ _ Happ) as (Hr & _ & _ & Hsrv).
    split; [done|]. by apply Hsrv.
  - intros Hauth. unfold handle, app. simpl. rewrite Hroute.
    by rewrite (requireAuth_authenticated _ _ (load_session srv rq).2).
Qed.

(** GET /posts is registered without the guard: whatever the session, the
    response is what the list handler produces. *)
Lemma get_posts_unguarded srv rq :
  route rq = GET_posts →
  response (handle srv rq).1 =
    match post_findMany (env rq) with
    | Ok posts => Ok (Render "posts/index" (LPosts posts))
    | Throw => Throw
    end.
Proof.
  intros Hroute. unfold handle, app. simpl. rewrite Hroute.
  unfold_handlers. by destruct (post_findMany (env rq)).
Qed.

End Properties.

Section Routes.
Context `{Bcrypt}.

(** C10: GET / answers with a redirect to /posts for every caller; the
    handler does not read the session, so the answer is the same whatever
    the state, and it is never a redirect to /login. *)
Theorem root_redirects_to_posts srv rq :
  route rq = GET_root →
  response (handle srv rq).1 = Ok (Redirect "/posts") ∧
  response (handle srv rq).1 ≠ Ok (Redirect "/login") ∧
  (∀ st, get_root st = (Ok (Redirect "/posts"), st)).
Proof.
  intros Hroute.
  assert (response (handle srv rq).1 = Ok (Redirect "/posts")) as Hr.
  { unfold handle, app. simpl. by rewrite Hroute. }
  rewrite Hr. by repeat split.
Qed.

(** The states of the server reached by validation errors. *)
Lemma app_post_register srv rq :
  route rq = POST_register →
  app rq (init_state srv rq) =
    post_register (env rq) (body_email rq) (body_password rq) (init_state srv rq).
Proof. intros Hroute. unfold app. by rewrite Hroute. Qed.

Lemma app_post_login srv rq :
  route rq = POST_login →
  app rq (init_state srv rq) =
    post_login (env rq) (body_email rq) (body_password rq) (init_state srv rq).
Proof. intros Hroute. unfold app. by rewrite Hroute. Qed.

(** C6: a registration whose password is shorter than 6 characters is
    answered with the form and a validation message; the handler's state
    (user table and session) is unchanged, so no user is created and an
    anonymous caller stays anonymous. *)
Theorem short_password_rejected srv rq p :
  route rq = POST_register →
  body_password rq = Some p →
  (String.length p < 6)%nat →
  ∃ msg,
    (msg = "Email and password required" ∨
     msg = "Password must be at least 6 characters") ∧
    post_register (env rq) (body_email rq) (body_password rq) (init_state srv rq)
      = (Ok (Render "auth/register" (LError msg)), init_state srv rq) ∧
    response (handle srv rq).1 = Ok (Render "auth/register" (LError msg)) ∧
    set_cookie (handle srv rq).1 = None ∧
    srv_db (step srv rq) = srv_db srv ∧
    (userId (load_session srv rq).2 = None → step srv rq = srv).
Proof.
  intros Hroute Hp Hlen.
  assert (∃ msg,
    (msg = "Email and password required" ∨
     msg = "Password must be at least 6 characters") ∧
    post_register (env rq) (body_email rq) (body_password rq) (init_state srv rq)
      = (Ok (Render "auth/register" (LError msg)), init_state srv rq))
    as (msg & Hmsg & Hrun).
  { unfold post_register. rewrite Hp.
    destruct (falsy (body_email rq) || falsy (Some p)) eqn:Hf.
    - eexists. split; [by left|done].
    - cbn [js_length]. apply Nat.ltb_lt in Hlen. rewrite Hlen.
      eexists. split; [by right|done]. }
  exists msg. split; [done|]. split; [done|].
  apply handle_unchanged_state. by rewrite app_post_register.
Qed.

(** C7, as the handler has it: a registration whose email is missing or
    empty is answered with the form and the message that both fields are
    required, and nothing changes. *)
Theorem empty_email_rejected srv rq :
  route rq = POST_register →
  falsy (body_email rq) = true →
  post_register (env rq) (body_email rq) (body_password rq) (init_state srv rq)
    = (Ok (Render "auth/register" (LError "Email and password required")),
       init_state srv rq) ∧
  response (handle srv rq).1
    = Ok (Render "auth/register" (LError "Email and password required")) ∧
  set_cookie (handle srv rq).1 = None ∧
  srv_db (step srv rq) = srv_db srv ∧
  (userId (load_session srv rq).2 = None → step srv rq = srv).
Proof.
  intros Hroute He.
  assert (post_register (env rq) (body_email rq) (body_password rq)
            (init_state srv rq)
          = (Ok (Render "auth/register" (LError "Email and password required")),
             init_state srv rq)) as Hrun.
  { unfold post_register. by rewrite He. }
  split; [done|]. apply handle_unchanged_state. by rewrite app_post_register.
Qed.

End Routes.

Section Failures.
Context `{Bcrypt}.

(** A handler that answers and leaves the request's session alone sets no
    cookie and, for an anonymous caller, leaves the session store alone. *)
Lemma handle_kept_session srv rq r st' :
  app rq (init_state srv rq) = (Ok r, st') →
  session st' = session (init_state srv rq) →
  response (handle srv rq).1 = Ok r ∧
  set_cookie (handle srv rq).1 = None ∧
  srv_db (step srv rq) = db st' ∧
  (userId (load_session srv rq).2 = None → sessions (step srv rq) = sessions srv).
Proof.
  intros Happ Hsess. unfold step, handle, session_cookie. rewrite Happ. simpl.
  rewrite Hsess. simpl.
  split; [done|]. split; [by rewrite bool_decide_eq_true_2|].
  split; [done|]. intros Hanon. by rewrite Hanon.
Qed.

(** What the register and login routes can answer: the form with an error,
    the rows and the session being as before, or the redirect, and then
    no field was missing, no call rejected, and the email was new
    (register) or the password verified against the email's row (login). *)
Lemma auth_route_outcome srv rq :
  route rq = POST_register ∨ route rq = POST_login →
  (∃ msg st',
     app rq (init_state srv rq) =
       (Ok (Render (form_view (route rq)) (LError msg)), st') ∧
     users (db st') = users (srv_db srv) ∧
     session st' = session (init_state srv rq)) ∨
  (∃ st', app rq (init_state srv rq) = (Ok (Redirect "/posts"), st') ∧
     falsy (body_email rq) = false ∧ falsy (body_password rq) = false ∧
     findUnique_throws (env rq) = false ∧
     (route rq = POST_register →
        (6 ≤ js_length (body_password rq))%nat ∧
        hash_throws (env rq) = false ∧ create_throws (env rq) = false ∧
        ∃ e, body_email rq = Some e ∧
             find_by_email e (users (srv_db srv)) = None) ∧
     (route rq = POST_login →
        compare_throws (env rq) = false ∧
        ∃ e p u, body_email rq = Some e ∧ body_password rq = Some p ∧
                 find_by_email e (users (srv_db srv)) = Some u ∧
                 bcrypt_compare_with p (user_passwordHash u) = true)).
Proof.
  intros [Hroute|Hroute].
  - rewrite app_post_register by done. rewrite Hroute. simpl.
    destruct (post_register_outcome (env rq) (body_email rq) (body_password rq)
                (init_state srv rq)) as [[msg Herr]|[Hrej|Hok]]; [by eexists| | |].
    + left. exists msg, (init_state srv rq). by rewrite Herr.
    + destruct Hrej as (e & p & _ & _ & _ & _ & _ & _ & _ & _ & Hrun).
      left. eexists _, _. by rewrite Hrun.
    + destruct Hok as (e & p & He & Hp & Hne & Hlen & Hfind & Hfu & Hh & Hc & Hrun).
      right. eexists. split; [done|]. rewrite He, Hp.
      assert (p ≠ "") as Hnp by (intros ->; simpl in Hlen; lia).
      rewrite (falsy_some e Hne), (falsy_some p Hnp).
      repeat split; try done. by exists e.
  - rewrite app_post_login by done. rewrite Hroute. simpl.
    destruct (post_login_outcome (env rq) (body_email rq) (body_password rq)
                (init_state srv rq)) as [[msg Herr]|Hok]; [by eexists| |].
    + left. exists msg, (init_state srv rq). by rewrite Herr.
    + destruct Hok as (e & p & u & He & Hp & Hfind & Hcmp & Hfu & Hc & Hrun).
      right. eexists. split; [done|].
      assert (falsy (body_email rq) || falsy (body_password rq) = false)
        as [Hfe Hfp]%orb_false_iff.
      { destruct (falsy (body_email rq) || falsy (body_password rq)) eqn:Hf;
          [|done].
        unfold post_login in Hrun. rewrite Hf in Hrun. discriminate. }
      repeat split; try done. by exists e, p, u.
Qed.

(** C8: the register and the login handler always answer (no rejection
    escapes them), with the redirect of a success or with the form and an
    error message, status 200.  Every failure is answered with the form
    and an error: for a registration a missing or empty field, a password
    shorter than 6, an email that a row already has, or a lookup, hash or
    create call that rejects; for a login a missing or empty field, an
    email that no row has, a password that does not verify, or a lookup or
    compare call that rejects.  An error answer sets no cookie, leaves the
    user rows as they were (no row is left by a rejected create) and
    leaves an anonymous caller without a session. *)
Theorem auth_failures_render_error srv rq :
  route rq = POST_register ∨ route rq = POST_login →
  (∃ r, response (handle srv rq).1 = Ok r ∧
     (r = Redirect "/posts" ∨
      ((∃ msg, r = Render (form_view (route rq)) (LError msg)) ∧
       status_code r = 200))) ∧
  (route rq = POST_register →
   falsy (body_email rq) = true ∨ falsy (body_password rq) = true ∨
   (js_length (body_password rq) < 6)%nat ∨
   (∃ e, body_email rq = Some e ∧ e ∈ user_email <$> users (srv_db srv)) ∨
   findUnique_throws (env rq) = true ∨ hash_throws (env rq) = true ∨
   create_throws (env rq) = true →
   ∃ msg, response (handle srv rq).1 =
            Ok (Render "auth/register" (LError msg))) ∧
  (route rq = POST_login →
   falsy (body_email rq) = true ∨ falsy (body_password rq) = true ∨
   (∃ e, body_email rq = Some e ∧ e ∉ user_email <$> users (srv_db srv)) ∨
   (∃ e p u, body_email rq = Some e ∧ body_password rq = Some p ∧
             find_by_email e (users (srv_db srv)) = Some u ∧
             bcrypt_compare_with p (user_passwordHash u) = false) ∨
   findUnique_throws (env rq) = true ∨ compare_throws (env rq) = true →
   ∃ msg, response (handle srv rq).1 =
            Ok (Render "auth/login" (LError msg))) ∧
  (∀ msg,
     response (handle srv rq).1 =
       Ok (Render (form_view (route rq)) (LError msg)) →
     set_cookie (handle srv rq).1 = None ∧
     users (srv_db (step srv rq)) = users (srv_db srv) ∧
     (userId (load_session srv rq).2 = None →
      sessions (step srv rq) = sessions srv)).
Proof.
  intros Hroute.
  destruct (auth_route_outcome srv rq Hroute)
    as [(msg & st' & Happ & Husers & Hsess)|Hok].
  - destruct (handle_kept_session _ _ _ _ Happ Hsess) as (Hr & Hc & Hdb & Hanon).
    split; [|split; [|split]].
    + eexists. split; [done|]. right. split; [by eexists|done].
    + intros Hreg _. rewrite Hreg in Hr. by exists msg.
    + intros Hlog _. rewrite Hlog in Hr. by exists msg.
    + intros _ _. split; [done|]. split; [by rewrite Hdb|done].
  - destruct Hok as (st' & Happ & Hfe & Hfp & Hfu & Hreg & Hlog).
    assert (response (handle srv rq).1 = Ok (Redirect "/posts")) as Hr.
    { unfold handle. by rewrite Happ. }
    split; [|split; [|split]].
    + exists (Redirect "/posts"). split; [done|by left].
    + intros Hroute' Hcause.
      destruct (Hreg Hroute') as (Hlen & Hh & Hc & e & He & Hfind).
      apply find_by_email_None in Hfind.
      destruct Hcause as [?|[?|[?|[(e' & He' & Hin)|[?|[?|?]]]]]];
        try congruence; lia.
    + intros Hroute' Hcause.
      destruct (Hlog Hroute') as (Hc & e & p & u & He & Hp & Hfind & Hcmp).
      destruct Hcause
        as [?|[?|[(e' & He' & Hnotin)|[(e' & p' & u' & He' & Hp' & Hfind' & Hcmp')
           |[?|?]]]]]; try congruence.
      assert (e' = e) as -> by congruence.
      apply find_by_email_Some in Hfind as [<- Hin].
      destruct Hnotin. by apply list_elem_of_fmap_2.
    + intros msg Hmsg. rewrite Hr in Hmsg. discriminate.
Qed.

(** A registration with valid fields whose hash or row creation rejects is
    answered with "Registration failed". *)
Lemma registration_failed_message env e p st :
  e ≠ "" → (6 ≤ String.length p)%nat →
  findUnique_throws env = false →
  find_by_email e (users (db st)) = None →
  hash_throws env = true ∨ create_throws env = true →
  (post_register env (Some e) (Some p) st).1 =
    Ok (Render "auth/register" (LError "Registration failed")).
Proof.
  intros He Hlen Hfu Hfind Hthrows. unfold post_register.
  rewrite (falsy_some e He).
  assert (p ≠ "") as Hp by (intros ->; simpl in Hlen; lia).
  rewrite (falsy_some p Hp). cbn [orb js_length].
  apply Nat.ltb_ge in Hlen. rewrite Hlen. unfold_handlers.
  rewrite Hfu, Hfind.
  destruct (hash_throws env); [done|].
  by destruct Hthrows as [?| ->].
Qed.

Lemma load_session_same_cookie srv rq1 rq2 :
  cookie rq1 = cookie rq2 → now rq1 = now rq2 →
  (load_session srv rq1).2 = (load_session srv rq2).2.
Proof.
  intros Hc Hn. unfold load_session. rewrite Hc, Hn.
  destruct (cookie rq2) as [t|]; [|done].
  by destruct (SessionStore.resolve _ _ _).
Qed.

(** The two ways a login is refused for its credentials. *)
Lemma post_login_unknown_email env e p st :
  e ≠ "" → p ≠ "" → findUnique_throws env = false →
  find_by_email e (users (db st)) = None →
  post_login env (Some e) (Some p) st =
    (Ok (Render "auth/login" (LError "Invalid email or password")), st).
Proof.
  intros He Hp Hfu Hfind. unfold post_login.
  rewrite (falsy_some e He), (falsy_some p Hp). cbn [orb].
  unfold_handlers. by rewrite Hfu, Hfind.
Qed.

Lemma post_login_wrong_password env e p u st :
  e ≠ "" → p ≠ "" → findUnique_throws env = false →
  compare_throws env = false →
  find_by_email e (users (db st)) = Some u →
  bcrypt_compare_with p (user_passwordHash u) = false →
  post_login env (Some e) (Some p) st =
    (Ok (Render "auth/login" (LError "Invalid email or password")), st).
Proof.
  intros He Hp Hfu Hc Hfind Hcmp. unfold post_login.
  rewrite (falsy_some e He), (falsy_some p Hp). cbn [orb].
  unfold_handlers. by rewrite Hfu, Hfind, Hc, Hcmp.
Qed.

(** C3: a login refused because no user has the email and a login refused
    because the password does not verify get the same answer: the login
    form with the message "Invalid email or password", no cookie, nothing
    changed; for one caller the two HTTP responses are equal as a whole. *)
Theorem login_failures_indistinguishable srv rq1 rq2 e1 p1 e2 p2 u :
  route rq1 = POST_login → route rq2 = POST_login →
  body_email rq1 = Some e1 → body_password rq1 = Some p1 →
  e1 ≠ "" → p1 ≠ "" →
  findUnique_throws (env rq1) = false →
  find_by_email e1 (users (srv_db srv)) = None →
  body_email rq2 = Some e2 → body_password rq2 = Some p2 →
  e2 ≠ "" → p2 ≠ "" →
  findUnique_throws (env rq2) = false →
  compare_throws (env rq2) = false →
  find_by_email e2 (users (srv_db srv)) = Some u →
  bcrypt_compare_with p2 (user_passwordHash u) = false →
  response (handle srv rq1).1 =
    Ok (Render "auth/login" (LError "Invalid email or password")) ∧
  response (handle srv rq2).1 = response (handle srv rq1).1 ∧
  set_cookie (handle srv rq1).1 = None ∧
  set_cookie (handle srv rq2).1 = None ∧
  srv_db (step srv rq1) = srv_db srv ∧
  srv_db (step srv rq2) = srv_db srv ∧
  (cookie rq1 = cookie rq2 → now rq1 = now rq2 →
   (handle srv rq1).1 = (handle srv rq2).1).
Proof.
  intros Hr1 Hr2 He1 Hp1 Hne1 Hnp1 Hfu1 Hfind1 He2 Hp2 Hne2 Hnp2 Hfu2 Hc2
    Hfind2 Hcmp.
  assert (app rq1 (init_state srv rq1) =
            (Ok (Render "auth/login" (LError "Invalid email or password")),
             init_state srv rq1)) as Happ1.
  { rewrite app_post_login, He1, Hp1 by done.
    by apply post_login_unknown_email. }
  assert (app rq2 (init_state srv rq2) =
            (Ok (Render "auth/login" (LError "Invalid email or password")),
             init_state srv rq2)) as Happ2.
  { rewrite app_post_login, He2, Hp2 by done.
    by apply (post_login_wrong_password _ _ _ u). }
  destruct (handle_unchanged_state _ _ _ Happ1) as (Hresp1 & Hck1 & Hdb1 & _).
  destruct (handle_unchanged_state _ _ _ Happ2) as (Hresp2 & Hck2 & Hdb2 & _).
  repeat split; try done; [congruence|].
  intros Hcookie Hnow.
  rewrite (handle_unchanged_http _ _ _ Happ1), (handle_unchanged_http _ _ _ Happ2).
  by rewrite (load_session_same_cookie srv rq1 rq2).
Qed.

End Failures.

Section Sessions.
Context `{Bcrypt}.

(** ** The session store *)

Lemma resolve_None_lookup (store : gmap string SessionEntry) now t :
  store !! t = None → SessionStore.resolve store now t = None.
Proof. intros Hl. unfold SessionStore.resolve. by rewrite Hl. Qed.


Lemma resolve_Some (store : gmap string SessionEntry) now t uid :
  SessionStore.resolve store now t = Some uid →
  ∃ e, store !! t = Some e ∧ entry_userId e = uid ∧ (now < expiresAt e)%Z.
Proof.
  unfold SessionStore.resolve. destruct (store !! t) as [e|]; [|done].
  case_bool_decide; [|done]. intros [= <-]. by exists e.
Qed.

Lemma resolve_later (store : gmap string SessionEntry) now now' t :
  SessionStore.resolve store now t = None → (now ≤ now')%Z →
  SessionStore.resolve store now' t = None.
Proof.
  unfold SessionStore.resolve. destruct (store !! t) as [e|]; [|done].
  repeat case_bool_decide; try done. lia.
Qed.

Lemma resolve_destroy (store : gmap string SessionEntry) now t :
  SessionStore.resolve (SessionStore.destroy store t) now t = None.
Proof. apply resolve_None_lookup. apply lookup_delete_eq. Qed.


Lemma destroy_absent (store : gmap string SessionEntry) t :
  store !! t = None → SessionStore.destroy store t = store.
Proof. intros Hl. unfold SessionStore.destroy. by apply delete_id. Qed.

Lemma resolve_create (store : gmap string SessionEntry) now now' t uid :
  (now' < now + maxAge)%Z →
  SessionStore.resolve (SessionStore.create store now t uid) now' t = Some uid.
Proof.
  intros Hlt. unfold SessionStore.resolve, SessionStore.create.
  rewrite lookup_insert_eq. simpl. by rewrite bool_decide_eq_true_2.
Qed.

(** ** One request and the store *)

(** A request touches at most the entry of its own session token. *)
Lemma step_sessions_other srv rq t :
  t ≠ (load_session srv rq).1 →
  sessions (step srv rq) !! t = sessions srv !! t.
Proof.
  intros Hne. unfold step, handle. simpl.
  destruct (app rq (init_state srv rq)).1; [|done].
  unfold commit_session, SessionStore.destroy, SessionStore.create.
  destruct (session _) as [s|]; [destruct (userId s)|].
  - by rewrite lookup_insert_ne.
  - done.
  - by rewrite lookup_delete_ne.
Qed.




(** ** Logout *)

Lemma step_logout srv rq :
  route rq = POST_logout →
  response (handle srv rq).1 = Ok (Redirect "/login") ∧
  step srv rq =
    {| srv_db := srv_db srv;
       sessions := SessionStore.destroy (sessions srv) (load_session srv rq).1 |}.
Proof.
  intros Hroute. unfold step, handle, app. rewrite Hroute. by simpl.
Qed.

(** C9: a logout is always answered with a redirect to /login and leaves
    the user table alone; afterwards the request's token does not resolve;
    when the request carried no valid token nothing changes; a second
    logout with the same cookie is answered the same way and changes
    nothing. *)
Theorem logout_always_succeeds srv rq rq' :
  route rq = POST_logout → route rq' = POST_logout →
  cookie rq' = cookie rq → (now rq ≤ now rq')%Z →
  sessions srv !! fresh_token rq = None →
  sessions srv !! fresh_token rq' = None →
  response (handle srv rq).1 = Ok (Redirect "/login") ∧
  srv_db (step srv rq) = srv_db srv ∧
  (∀ t, cookie rq = Some t →
        SessionStore.resolve (sessions (step srv rq)) (now rq) t = None) ∧
  (∀ t uid, cookie rq = Some t →
        SessionStore.resolve (sessions srv) (now rq) t = Some uid →
        sessions (step srv rq) = SessionStore.destroy (sessions srv) t) ∧
  (userId (load_session srv rq).2 = None → step srv rq = srv) ∧
  response (handle (step srv rq) rq').1 = Ok (Redirect "/login") ∧
  step (step srv rq) rq' = step srv rq.
Proof.
  intros Hroute Hroute' Hcookie Hnow Hfresh Hfresh'.
  destruct (step_logout srv rq Hroute) as [Hresp Hstep].
  destruct (step_logout (step srv rq) rq' Hroute') as [Hresp' Hstep'].
  assert (userId (load_session srv rq).2 = None → step srv rq = srv) as Hnoop.
  { intros Hanon. rewrite Hstep, (load_session_anonymous _ _ Hanon).
    rewrite destroy_absent by done. by destruct srv. }
  assert (∀ t, cookie rq = Some t →
            SessionStore.resolve (sessions (step srv rq)) (now rq) t = None)
    as Hgone.
  { intros t Ht. destruct (userId (load_session srv rq).2) as [uid|] eqn:Hu.
    - apply load_session_resolved in Hu as (t' & Ht' & Hsid & _).
      assert (t' = t) as -> by congruence.
      rewrite Hstep, Hsid. apply resolve_destroy.
    - rewrite (Hnoop eq_refl). revert Hu. unfold load_session. rewrite Ht.
      by destruct (SessionStore.resolve _ _ _). }
  split; [done|]. split; [by rewrite Hstep|]. split; [done|].
  split; [|split; [done|split; [done|]]].
  - intros t uid Ht Hres. rewrite Hstep. simpl. f_equal.
    unfold load_session. by rewrite Ht, Hres.
  - rewrite Hstep'.
    assert (userId (load_session (step srv rq) rq').2 = None) as Hanon'.
    { unfold load_session. rewrite Hcookie.
      destruct (cookie rq) as [t|] eqn:Ht; [|done].
      by rewrite (resolve_later _ _ _ _ (Hgone t eq_refl) Hnow). }
    rewrite (load_session_anonymous _ _ Hanon').
    rewrite destroy_absent; [by destruct (step srv rq)|].
    rewrite Hstep. simpl. unfold SessionStore.destroy.
    destruct (decide ((load_session srv rq).1 = fresh_token rq')) as [->|Hne].
    + apply lookup_delete_eq.
    + by rewrite lookup_delete_ne.
Qed.


End Sessions.

Section Accounts.
Context `{Bcrypt}.

(** ** The user table along a run *)

(** A request leaves the rows alone or appends one row whose email was not
    in the table. *)
Lemma step_users srv rq :
  users (srv_db (step srv rq)) = users (srv_db srv) ∨
  ∃ u, users (srv_db (step srv rq)) = (users (srv_db srv) ++ [u])%list ∧
       find_by_email (user_email u) (users (srv_db srv)) = None.
Proof.
  unfold step, handle. simpl. unfold app.
  destruct (route rq) eqn:Hroute; try (by left).
  - destruct (post_register_outcome (env rq) (body_email rq) (body_password rq)
                (init_state srv rq)) as [[msg ->]|[Hrej|Hok]];
      [by eexists|by left| |].
    + destruct Hrej as (e & p & _ & _ & _ & _ & _ & _ & _ & _ & ->). by left.
    + destruct Hok as (e & p & _ & _ & _ & _ & Hfind & _ & _ & _ & ->).
      right. eexists. split; [done|]. done.
  - destruct (post_login_outcome (env rq) (body_email rq) (body_password rq)
                (init_state srv rq)) as [[msg ->]|Hok]; [by eexists|by left|].
    destruct Hok as (e & p & u & _ & _ & _ & _ & _ & _ & ->). by left.
  - unfold_handlers. simpl. by destruct (post_findMany (env rq)); left.
  - unfold_handlers. simpl.
    destruct (negb _); [by left|].
    by destruct (post_findUnique (env rq)) as [[p|]|]; left.
Qed.

Lemma step_find_by_email srv rq e u :
  find_by_email e (users (srv_db srv)) = Some u →
  find_by_email e (users (srv_db (step srv rq))) = Some u.
Proof.
  intros Hfind. destruct (step_users srv rq) as [->|(v & -> & _)]; [done|].
  by apply find_by_email_app_Some.
Qed.

(** A registered email keeps resolving to the same row. *)
Lemma run_find_by_email srv rqs e u :
  find_by_email e (users (srv_db srv)) = Some u →
  find_by_email e (users (srv_db (run srv rqs))) = Some u.
Proof.
  revert srv. induction rqs as [|rq rqs IH]; intros srv Hfind; [done|].
  simpl. by apply IH, step_find_by_email.
Qed.

(** Rows that carry a given email. *)
Lemma rows_with_email_None e us :
  find_by_email e us = None →
  filter (λ u, user_email u = e) us = [].
Proof.
  unfold find_by_email. induction us as [|w us IH]; simpl; [done|].
  case_bool_decide as He; [done|]. intros Hf.
  rewrite filter_cons_False by done. by apply IH.
Qed.

Lemma step_rows_with_email srv rq e u :
  find_by_email e (users (srv_db srv)) = Some u →
  filter (λ v, user_email v = e) (users (srv_db (step srv rq)))
    = filter (λ v, user_email v = e) (users (srv_db srv)).
Proof.
  intros Hfind. destruct (step_users srv rq) as [->|(v & -> & Hv)]; [done|].
  rewrite filter_app. rewrite filter_cons_False, filter_nil, app_nil_r; [done|].
  intros <-. congruence.
Qed.

Lemma run_rows_with_email srv rqs e u :
  find_by_email e (users (srv_db srv)) = Some u →
  filter (λ v, user_email v = e) (users (srv_db (run srv rqs)))
    = filter (λ v, user_email v = e) (users (srv_db srv)).
Proof.
  revert srv. induction rqs as [|rq rqs IH]; intros srv Hfind; [done|].
  simpl. rewrite IH by by apply step_find_by_email.
  by apply (step_rows_with_email _ _ _ u).
Qed.

(** What a successful registration leaves in the table. *)
Lemma register_success srv rq e p :
  route rq = POST_register →
  body_email rq = Some e → body_password rq = Some p →
  response (handle srv rq).1 = Ok (Redirect "/posts") →
  let u := {| user_id := next_id (srv_db srv); user_email := e;
              user_passwordHash := bcrypt_hash_with p 10 (salt (env rq)) |} in
  e ≠ "" ∧ (6 ≤ String.length p)%nat ∧
  find_by_email e (users (srv_db srv)) = None ∧
  users (srv_db (step srv rq)) = (users (srv_db srv) ++ [u])%list ∧
  find_by_email e (users (srv_db (step srv rq))) = Some u.
Proof.
  intros Hroute He Hp Hresp u. unfold step. revert Hresp.
  unfold handle. simpl. rewrite app_post_register by done.
  destruct (post_register_outcome (env rq) (body_email rq) (body_password rq)
              (init_state srv rq)) as [[msg ->]|[Hrej|Hok]]; [by eexists|done| |].
  { by destruct Hrej as (e' & p' & _ & _ & _ & _ & _ & _ & _ & _ & ->). }
  destruct Hok as (e' & p' & He' & Hp' & Hne & Hlen & Hfind & _ & _ & _ & ->).
  assert (e' = e) as -> by congruence. assert (p' = p) as -> by congruence.
  intros _. simpl. repeat split; try done.
  rewrite (find_by_email_app_None _ _ _ Hfind). simpl.
  by rewrite bool_decide_eq_true_2.
Qed.

(** A registration for an email that is in the table is answered with
    "Email already registered" and changes nothing. *)
Lemma post_register_duplicate env e p u st :
  e ≠ "" → (6 ≤ String.length p)%nat →
  findUnique_throws env = false →
  find_by_email e (users (db st)) = Some u →
  post_register env (Some e) (Some p) st =
    (Ok (Render "auth/register" (LError "Email already registered")), st).
Proof.
  intros He Hlen Hfu Hfind. unfold post_register.
  rewrite (falsy_some e He).
  assert (p ≠ "") as Hp by (intros ->; simpl in Hlen; lia).
  rewrite (falsy_some p Hp). cbn [orb js_length].
  apply Nat.ltb_ge in Hlen. rewrite Hlen. unfold_handlers.
  by rewrite Hfu, Hfind.
Qed.

(** C4: once a registration with an email has succeeded, a later
    registration with the same email and a password of at least 6
    characters is answered with "Email already registered"; it adds no user
    row (the table is unchanged and holds exactly one row with that email),
    sets no cookie and leaves an anonymous caller's server state, session
    store included, as it was. *)
Theorem duplicate_email_rejected srv rq1 rqs rq2 e p1 p2 :
  route rq1 = POST_register →
  body_email rq1 = Some e → body_password rq1 = Some p1 →
  response (handle srv rq1).1 = Ok (Redirect "/posts") →
  route rq2 = POST_register →
  body_email rq2 = Some e → body_password rq2 = Some p2 →
  (6 ≤ String.length p2)%nat →
  findUnique_throws (env rq2) = false →
  let srv' := run (step srv rq1) rqs in
  response (handle srv' rq2).1 =
    Ok (Render "auth/register" (LError "Email already registered")) ∧
  set_cookie (handle srv' rq2).1 = None ∧
  srv_db (step srv' rq2) = srv_db srv' ∧
  (userId (load_session srv' rq2).2 = None → step srv' rq2 = srv') ∧
  length (filter (λ u, user_email u = e) (users (srv_db (step srv' rq2)))) = 1%nat.
Proof.
  intros Hr1 He1 Hp1 Hresp Hr2 He2 Hp2 Hlen Hfu srv'.
  destruct (register_success srv rq1 e p1 Hr1 He1 Hp1 Hresp)
    as (Hne & _ & Hfind0 & Husers & Hfind1).
  pose proof (run_find_by_email _ rqs _ _ Hfind1) as Hfind. fold srv' in Hfind.
  assert (app rq2 (init_state srv' rq2) =
            (Ok (Render "auth/register" (LError "Email already registered")),
             init_state srv' rq2)) as Happ.
  { rewrite app_post_register, He2, Hp2 by done.
    by eapply post_register_duplicate. }
  destruct (handle_unchanged_state _ _ _ Happ) as (Hresp2 & Hck & Hdb & Hanon).
  repeat split; try done.
  rewrite Hdb. unfold srv'.
  rewrite (run_rows_with_email _ rqs _ _ Hfind1), Husers, filter_app.
  rewrite (rows_with_email_None _ _ Hfind0). simpl.
  by rewrite filter_cons_True, filter_nil.
Qed.

(** C5: after a registration of an email and a password has succeeded,
    and whatever requests came in between, a login with that email and
    that password whose store and hasher calls complete finds the row
    created by the registration, sets the session's user id to that row's
    id and redirects to /posts; the request's session token then resolves
    to that id until the session's expiry. *)
Theorem registered_login_succeeds srv rq1 rqs rq2 e p :
  bcrypt_sound →
  route rq1 = POST_register →
  body_email rq1 = Some e → body_password rq1 = Some p →
  response (handle srv rq1).1 = Ok (Redirect "/posts") →
  route rq2 = POST_login →
  body_email rq2 = Some e → body_password rq2 = Some p →
  findUnique_throws (env rq2) = false →
  compare_throws (env rq2) = false →
  let srv' := run (step srv rq1) rqs in
  let uid := next_id (srv_db srv) in
  (∃ u, find_by_email e (users (srv_db srv')) = Some u ∧ user_id u = uid) ∧
  response (handle srv' rq2).1 = Ok (Redirect "/posts") ∧
  session (app rq2 (init_state srv' rq2)).2 = Some {| userId := Some uid |} ∧
  srv_db (step srv' rq2) = srv_db srv' ∧
  (∀ t, (t < now rq2 + maxAge)%Z →
        SessionStore.resolve (sessions (step srv' rq2)) t (load_session srv' rq2).1
          = Some uid).
Proof.
  intros Hsound Hr1 He1 Hp1 Hresp Hr2 He2 Hp2 Hfu Hc srv' uid.
  destruct (register_success srv rq1 e p Hr1 He1 Hp1 Hresp)
    as (Hne & Hlen & _ & _ & Hfind1).
  pose proof (run_find_by_email _ rqs _ _ Hfind1) as Hfind. fold srv' in Hfind.
  assert (p ≠ "") as Hnp by (intros ->; simpl in Hlen; lia).
  assert (app rq2 (init_state srv' rq2) =
            (Ok (Redirect "/posts"),
             {| db := srv_db srv'; session := Some {| userId := Some uid |} |}))
    as Happ.
  { rewrite app_post_login, He2, Hp2 by done. unfold post_login.
    rewrite (falsy_some e Hne), (falsy_some p Hnp). cbn [orb].
    unfold_handlers. simpl. rewrite Hfu, Hfind, Hc. simpl.
    by rewrite Hsound. }
  split; [by eexists|].
  unfold step, handle. rewrite Happ. simpl.
  repeat split; try done.
  intros t Ht. by apply resolve_create.
Qed.

End Accounts.

(** * The properties on concrete requests *)

Lemma demo_bcrypt_sound : @bcrypt_sound demo_bcrypt.
Proof.
  intros password rounds slt. simpl. unfold demo_hash, demo_compare.
  destruct slt; by rewrite bool_decide_eq_true_2.
Qed.

(** C1 (GET /posts part): a request to GET /posts without any session
    cookie is not redirected to /login; the list handler runs and the
    index view is rendered, while the same caller is redirected on
    GET /posts/:id. *)
Theorem get_posts_anonymous_is_served :
  response (@handle demo_bcrypt empty_server (bare_request GET_posts)).1
    = Ok (Render "posts/index" (LPosts [])) ∧
  response (@handle demo_bcrypt empty_server (bare_request GET_posts)).1
    ≠ Ok (Redirect "/login") ∧
  userId (load_session empty_server (bare_request GET_posts)).2 = None ∧
  response (@handle demo_bcrypt empty_server (bare_request GET_posts_id)).1
    = Ok (Redirect "/login").
Proof. by repeat split. Qed.

(** GET / with alice's cookie. *)
Lemma root_redirects_to_posts_witness :
  route (with_cookie "t1" 10 "t2" (bare_request GET_root)) = GET_root ∧
  response (@handle demo_bcrypt alice_server
              (with_cookie "t1" 10 "t2" (bare_request GET_root))).1
    = Ok (Redirect "/posts").
Proof.
  split; [reflexivity|].
  apply (@root_redirects_to_posts demo_bcrypt alice_server
           (with_cookie "t1" 10 "t2" (bare_request GET_root))).
  reflexivity.
Defined.


(** A login with an unknown email and a login of alice with a wrong
    password. *)
Lemma login_failures_indistinguishable_witness :
  (@handle demo_bcrypt alice_server
     (form_request POST_login "bob@example.com" "secret1")).1
  = (@handle demo_bcrypt alice_server
       (form_request POST_login "alice@example.com" "wrongpass")).1.
Proof.
  apply (@login_failures_indistinguishable demo_bcrypt alice_server
           (form_request POST_login "bob@example.com" "secret1")
           (form_request POST_login "alice@example.com" "wrongpass")
           "bob@example.com" "secret1" "alice@example.com" "wrongpass"
           {| user_id := 1; user_email := "alice@example.com";
              user_passwordHash := "ssecret1" |});
    try reflexivity; discriminate.
Defined.

(** Alice registers, logs in again, and then registers a second time. *)
Lemma duplicate_email_rejected_witness :
  response
    (@handle demo_bcrypt
       (@run demo_bcrypt alice_server
          [form_request POST_login "alice@example.com" "secret1"])
       (form_request POST_register "alice@example.com" "secret2")).1
  = Ok (Render "auth/register" (LError "Email already registered")).
Proof.
  apply (@duplicate_email_rejected demo_bcrypt empty_server
           (form_request POST_register "alice@example.com" "secret1")
           [form_request POST_login "alice@example.com" "secret1"]
           (form_request POST_register "alice@example.com" "secret2")
           "alice@example.com" "secret1" "secret2");
    try reflexivity.
  simpl. lia.
Defined.

(** Alice registers, logs out, and logs in again. *)
Lemma registered_login_succeeds_witness :
  response
    (@handle demo_bcrypt
       (@run demo_bcrypt alice_server
          [with_cookie "t1" 10 "t2" (bare_request POST_logout)])
       (with_cookie "t1" 20 "t3"
          (form_request POST_login "alice@example.com" "secret1"))).1
  = Ok (Redirect "/posts").
Proof.
  apply (@registered_login_succeeds demo_bcrypt empty_server
           (form_request POST_register "alice@example.com" "secret1")
           [with_cookie "t1" 10 "t2" (bare_request POST_logout)]
           (with_cookie "t1" 20 "t3"
              (form_request POST_login "alice@example.com" "secret1"))
           "alice@example.com" "secret1");
    try reflexivity.
  apply demo_bcrypt_sound.
Defined.

(** A registration with a password of five characters. *)
Lemma short_password_rejected_witness :
  ∃ msg,
    response (@handle demo_bcrypt empty_server
                (form_request POST_register "alice@example.com" "abcde")).1
      = Ok (Render "auth/register" (LError msg)) ∧
    @step demo_bcrypt empty_server
      (form_request POST_register "alice@example.com" "abcde") = empty_server.
Proof.
  destruct (@short_password_rejected demo_bcrypt empty_server
              (form_request POST_register "alice@example.com" "abcde") "abcde")
    as (msg & _ & _ & Hresp & _ & _ & Hsrv);
    [reflexivity|reflexivity|simpl; lia|].
  exists msg. split; [exact Hresp|]. apply Hsrv. reflexivity.
Defined.

(** A registration with an empty email. *)
Lemma empty_email_rejected_witness :
  response (@handle demo_bcrypt empty_server
              (form_request POST_register "" "secret1")).1
    = Ok (Render "auth/register" (LError "Email and password required")).
Proof.
  apply (@empty_email_rejected demo_bcrypt empty_server
           (form_request POST_register "" "secret1"));
    reflexivity.
Defined.

(** C7, as stated, fails: "not-an-email" has no at sign, and the
    registration creates the user and logs them in. *)
Lemma malformed_email_is_registered :
  String.index 0 "@" "not-an-email" = None ∧
  response (@handle demo_bcrypt empty_server
              (form_request POST_register "not-an-email" "secret1")).1
    = Ok (Redirect "/posts") ∧
  users (srv_db (@step demo_bcrypt empty_server
                   (form_request POST_register "not-an-email" "secret1")))
    = [{| user_id := 1; user_email := "not-an-email";
          user_passwordHash := "ssecret1" |}] ∧
  SessionStore.resolve
    (sessions (@step demo_bcrypt empty_server
                 (form_request POST_register "not-an-email" "secret1")))
    0 "t1" = Some 1%Z.
Proof. by repeat split. Qed.

(** A registration whose row creation rejects, and a login of alice with
    a wrong password. *)
Lemma auth_failures_render_error_witness :
  (∃ msg,
     response (@handle demo_bcrypt empty_server
                 (with_failing_create
                    (form_request POST_register "alice@example.com" "secret1"))).1
       = Ok (Render "auth/register" (LError msg))) ∧
  users (srv_db (@step demo_bcrypt empty_server
                   (with_failing_create
                      (form_request POST_register "alice@example.com" "secret1"))))
    = [] ∧
  sessions (@step demo_bcrypt empty_server
              (with_failing_create
                 (form_request POST_register "alice@example.com" "secret1")))
    = ∅ ∧
  (∃ msg,
     response (@handle demo_bcrypt alice_server
                 (form_request POST_login "alice@example.com" "wrongpass")).1
       = Ok (Render "auth/login" (LError msg))).
Proof.
  destruct (@auth_failures_render_error demo_bcrypt empty_server
              (with_failing_create
                 (form_request POST_register "alice@example.com" "secret1")))
    as (_ & Hreg & _ & Hkept); [left; reflexivity|].
  destruct Hreg as [msg Hmsg];
    [reflexivity|do 6 right; reflexivity|].
  destruct (Hkept msg Hmsg) as (_ & Husers & Hsess).
  split; [by exists msg|]. split; [exact Husers|].
  split; [apply Hsess; reflexivity|].
  destruct (@auth_failures_render_error demo_bcrypt alice_server
              (form_request POST_login "alice@example.com" "wrongpass"))
    as (_ & _ & Hlog & _); [right; reflexivity|].
  apply Hlog; [reflexivity|]. do 3 right. left.
  exists "alice@example.com", "wrongpass",
    {| user_id := 1; user_email := "alice@example.com";
       user_passwordHash := "ssecret1" |}.
  repeat split; reflexivity.
Defined.

(** Alice logs out twice. *)
Lemma logout_always_succeeds_witness :
  response (@handle demo_bcrypt alice_server
              (with_cookie "t1" 10 "t2" (bare_request POST_logout))).1
    = Ok (Redirect "/login") ∧
  @step demo_bcrypt
    (@step demo_bcrypt alice_server
       (with_cookie "t1" 10 "t2" (bare_request POST_logout)))
    (with_cookie "t1" 20 "t3" (bare_request POST_logout))
  = @step demo_bcrypt alice_server
      (with_cookie "t1" 10 "t2" (bare_request POST_logout)).
Proof.
  destruct (@logout_always_succeeds demo_bcrypt alice_server
              (with_cookie "t1" 10 "t2" (bare_request POST_logout))
              (with_cookie "t1" 20 "t3" (bare_request POST_logout)))
    as (Hresp & _ & _ & _ & _ & _ & Htwice);
    try reflexivity; [simpl; lia|].
  split; [exact Hresp|exact Htwice].
Defined.

(** * Further properties of the application *)

Section Outcomes.
Context `{Bcrypt}.

(** What a request can do to the handler's state: nothing, destroy the
    session (logout), append a user and log them in (register), or log an
    existing user in (login). *)
Lemma app_state_cases srv rq :
  (app rq (init_state srv rq)).2 = init_state srv rq ∨
  (route rq = POST_register ∧
   app rq (init_state srv rq) =
     (Ok (Render "auth/register" (LError "Registration failed")),
      after_rejected_create (create_draws_id (env rq)) (init_state srv rq))) ∨
  (route rq = POST_logout ∧
   app rq (init_state srv rq) =
     (Ok (Redirect "/login"), {| db := srv_db srv; session := None |})) ∨
  (∃ e p, route rq = POST_register ∧
     body_email rq = Some e ∧ body_password rq = Some p ∧
     e ≠ "" ∧ (6 ≤ String.length p)%nat ∧
     find_by_email e (users (srv_db srv)) = None ∧
     app rq (init_state srv rq) =
       (Ok (Redirect "/posts"), registered_state (env rq) e p (init_state srv rq))) ∨
  (∃ e p u, route rq = POST_login ∧
     body_email rq = Some e ∧ body_password rq = Some p ∧
     find_by_email e (users (srv_db srv)) = Some u ∧
     bcrypt_compare_with p (user_passwordHash u) = true ∧
     app rq (init_state srv rq) =
       (Ok (Redirect "/posts"),
        {| db := srv_db srv; session := Some {| userId := Some (user_id u) |} |})).
Proof.
  unfold app. destruct (route rq) eqn:Hroute; try (by left).
  - destruct (post_register_outcome (env rq) (body_email rq) (body_password rq)
                (init_state srv rq)) as [[msg ->]|[Hrej|Hok]];
      [by eexists|by left| |].
    + destruct Hrej as (e & p & _ & _ & _ & _ & _ & _ & _ & _ & Hrun).
      right. left. done.
    + destruct Hok as (e & p & He & Hp & Hne & Hlen & Hfind & _ & _ & _ & Hrun).
      right. right. right. left. exists e, p. by repeat split.
  - destruct (post_login_outcome (env rq) (body_email rq) (body_password rq)
                (init_state srv rq)) as [[msg ->]|Hok]; [by eexists|by left|].
    destruct Hok as (e & p & u & He & Hp & Hfind & Hcmp & _ & _ & Hrun).
    right. right. right. right. exists e, p, u. by repeat split.
  - right. right. left. done.
  - left. unfold_handlers. simpl. by destruct (post_findMany (env rq)).
  - left. unfold_handlers. simpl. destruct (negb _); [done|].
    by destruct (post_findUnique (env rq)) as [[p|]|].
Qed.

(** The user table after one request. *)
Lemma step_db srv rq :
  srv_db (step srv rq) = srv_db srv ∨
  (route rq = POST_register ∧
   users (srv_db (step srv rq)) = users (srv_db srv) ∧
   (next_id (srv_db srv) ≤ next_id (srv_db (step srv rq)))%Z) ∨
  ∃ e p, route rq = POST_register ∧
    body_email rq = Some e ∧ body_password rq = Some p ∧
    find_by_email e (users (srv_db srv)) = None ∧
    srv_db (step srv rq) =
      {| users := users (srv_db srv) ++
           [{| user_id := next_id (srv_db srv); user_email := e;
               user_passwordHash := bcrypt_hash_with p 10 (salt (env rq)) |}];
         next_id := next_id (srv_db srv) + 1 |}.
Proof.
  unfold step, handle. simpl.
  destruct (app_state_cases srv rq)
    as [->|[[Hr ->]|[[_ ->]|[(e & p & Hr & He & Hp & _ & _ & Hfind & ->)|Hlogin]]]];
    try (by left).
  - right. left. simpl. split; [done|]. split; [done|].
    destruct (create_draws_id (env rq)); lia.
  - right. right. exists e, p. by repeat split.
  - destruct Hlogin as (e & p & u & _ & _ & _ & _ & _ & ->). by left.
Qed.

End Outcomes.

Section Invariants.
Context `{Bcrypt}.

Lemma step_users_ok srv rq :
  users_ok (srv_db srv) → users_ok (srv_db (step srv rq)).
Proof.
  intros (Hemails & Hids & Hrange & Hnext).
  destruct (step_db srv rq)
    as [->|[(_ & Husers & Hle)|(e & p & _ & _ & _ & Hfind & ->)]]; [done| |].
  { unfold users_ok. rewrite Husers.
    split; [done|]. split; [done|]. split; [|lia].
    eapply Forall_impl; [exact Hrange|]. intros u Hu. simpl in *. lia. }
  apply find_by_email_None in Hfind.
  unfold users_ok. simpl. rewrite !fmap_app. simpl. repeat split.
  - apply NoDup_app. split; [done|]. split; [|apply NoDup_singleton].
    intros x Hx ->%list_elem_of_singleton. done.
  - apply NoDup_app. split; [done|]. split; [|apply NoDup_singleton].
    intros x Hx ->%list_elem_of_singleton.
    apply list_elem_of_fmap in Hx as (u & Hu & Hin).
    rewrite Forall_forall in Hrange. specialize (Hrange u Hin). lia.
  - apply Forall_app. split.
    + eapply Forall_impl; [exact Hrange|]. simpl. intros u Hu. lia.
    + apply Forall_singleton. simpl. lia.
  - lia.
Qed.

Lemma run_users_ok srv rqs :
  users_ok (srv_db srv) → users_ok (srv_db (run srv rqs)).
Proof.
  revert srv. induction rqs as [|rq rqs IH]; intros srv Hok; [done|].
  simpl. by apply IH, step_users_ok.
Qed.

Lemma step_users_prefix srv rq :
  users (srv_db srv) `prefix_of` users (srv_db (step srv rq)).
Proof.
  destruct (step_db srv rq)
    as [->|[(_ & -> & _)|(e & p & _ & _ & _ & _ & ->)]]; [done|done|].
  simpl. by apply prefix_app_r.
Qed.

Lemma run_users_prefix srv rqs :
  users (srv_db srv) `prefix_of` users (srv_db (run srv rqs)).
Proof.
  revert srv. induction rqs as [|rq rqs IH]; intros srv; [done|].
  simpl. etrans; [apply (step_users_prefix srv rq)|apply IH].
Qed.

(** The user a request's final session names is the one the request came
    with or a row of the table. *)
Lemma step_session_entry srv rq e :
  sessions (step srv rq) !! (load_session srv rq).1 = Some e →
  sessions srv !! (load_session srv rq).1 = Some e ∨
  (∃ uid, userId (load_session srv rq).2 = Some uid ∧ entry_userId e = uid) ∨
  (∃ u, u ∈ users (srv_db (step srv rq)) ∧ user_id u = entry_userId e).
Proof.
  unfold step, handle. simpl.
  destruct (app_state_cases srv rq)
    as [Hsame|[[_ ->]|[[_ ->]|[(em & p & _ & _ & _ & _ & _ & _ & ->)|Hlogin]]]].
  - rewrite Hsame. simpl. destruct (app rq (init_state srv rq)).1; [|by left].
    unfold commit_session, SessionStore.create. simpl.
    destruct (userId (load_session srv rq).2) as [uid|] eqn:Hu; [|by left].
    rewrite lookup_insert_eq. intros [= <-]. right. left. by exists uid.
  - simpl. unfold commit_session, SessionStore.create. simpl.
    destruct (userId (load_session srv rq).2) as [uid|] eqn:Hu; [|by left].
    rewrite lookup_insert_eq. intros [= <-]. right. left. by exists uid.
  - simpl. unfold SessionStore.destroy. by rewrite lookup_delete_eq.
  - simpl. unfold SessionStore.create. rewrite lookup_insert_eq.
    intros [= <-]. right. right. eexists. split.
    + apply elem_of_app. right. apply list_elem_of_singleton. reflexivity.
    + done.
  - destruct Hlogin as (em & p & u & _ & _ & _ & Hfind & _ & ->). simpl.
    unfold SessionStore.create. rewrite lookup_insert_eq.
    intros [= <-]. right. right. exists u. split; [|done].
    by apply find_by_email_Some in Hfind as [_ ?].
Qed.

Lemma step_sessions_ok srv rq :
  sessions_ok srv → sessions_ok (step srv rq).
Proof.
  intros Hok t e Hl.
  assert (∀ u, u ∈ users (srv_db srv) → u ∈ users (srv_db (step srv rq)))
    as Hmono.
  { intros u Hu. destruct (step_users_prefix srv rq) as [k ->].
    apply elem_of_app. by left. }
  destruct (decide (t = (load_session srv rq).1)) as [->|Hne].
  - destruct (step_session_entry srv rq e Hl) as [Hold|[Hkept|Hnew]]; [| |done].
    + destruct (Hok _ _ Hold) as (u & Hu & Hid). exists u. auto.
    + destruct Hkept as (uid & Hu & Hid).
      apply load_session_resolved in Hu as (t' & _ & _ & Hres).
      apply resolve_Some in Hres as (e' & Hl' & Hid' & _).
      destruct (Hok _ _ Hl') as (u & Hu & Hidu). exists u.
      split; [auto|congruence].
  - rewrite step_sessions_other in Hl by done.
    destruct (Hok _ _ Hl) as (u & Hu & Hid). exists u. auto.
Qed.

Lemma run_sessions_ok srv rqs :
  sessions_ok srv → sessions_ok (run srv rqs).
Proof.
  revert srv. induction rqs as [|rq rqs IH]; intros srv Hok; [done|].
  simpl. by apply IH, step_sessions_ok.
Qed.

(** X1: whatever requests the server has handled since it started with an
    empty table, the emails of the user rows are pairwise distinct, and so
    are the ids, which all lie between 1 and the autoincrement counter. *)
Theorem reachable_users_ok rqs :
  users_ok (srv_db (run empty_server rqs)).
Proof.
  apply run_users_ok. unfold users_ok. simpl.
  repeat split; try apply NoDup_nil_2; [apply Forall_nil_2|lia].
Qed.

(** X2: whatever requests the server has handled since it started empty,
    every session in the store belongs to a user row of the table. *)
Theorem reachable_sessions_ok rqs :
  sessions_ok (run empty_server rqs).
Proof. apply run_sessions_ok. intros t e Hl. simpl in Hl. by rewrite lookup_empty in Hl. Qed.

(** X3: user rows are never removed or changed: the table before a run is
    a prefix of the table after it; and a run without POST /register
    leaves the table, counter included, exactly as it was. *)
Theorem user_rows_are_kept srv rqs :
  users (srv_db srv) `prefix_of` users (srv_db (run srv rqs)) ∧
  (Forall (λ r, route r ≠ POST_register) rqs →
   srv_db (run srv rqs) = srv_db srv).
Proof.
  split; [apply run_users_prefix|].
  revert srv. induction rqs as [|rq rqs IH]; intros srv Hrqs; [done|].
  apply Forall_cons in Hrqs as [Hrq Hrqs]. simpl. rewrite IH by done.
  by destruct (step_db srv rq) as [->|[(Hr & _)|(e & p & Hr & _)]].
Qed.

End Invariants.

Section GuardedRoute.
Context `{Bcrypt}.

Lemma get_posts_id_not_login_redirect env st :
  (get_posts_id env st).1 ≠ Ok (Redirect "/login").
Proof.
  unfold_handlers. by destruct (post_findUnique env) as [[p|]|].
Qed.

Lemma load_session_stored srv rq t e :
  cookie rq = Some t → sessions srv !! t = Some e →
  load_session srv rq =
    if bool_decide (now rq < expiresAt e)%Z
    then (t, {| userId := Some (entry_userId e) |})
    else (fresh_token rq, {| userId := None |}).
Proof.
  intros Hc Hl. unfold load_session, SessionStore.resolve. rewrite Hc, Hl.
  by case_bool_decide.
Qed.

Lemma guarded_route_response srv rq :
  route rq = GET_posts_id →
  response (handle srv rq).1 =
    if truthy_id (userId (load_session srv rq).2)
    then (get_posts_id (env rq) (init_state srv rq)).1
    else Ok (Redirect "/login").
Proof.
  intros Hroute. unfold handle, app. simpl. rewrite Hroute.
  destruct (truthy_id (userId (load_session srv rq).2)) eqn:Hu.
  - by rewrite (requireAuth_authenticated _ _ (load_session srv rq).2).
  - by rewrite (requireAuth_anonymous _ _ (load_session srv rq).2).
Qed.

(** X4: the guard and the views agree on who is logged in: GET /posts/:id
    is answered with the redirect to /login exactly when
    [res.locals.currentUser] of that request is null. *)
Theorem guard_agrees_with_currentUser srv rq :
  route rq = GET_posts_id →
  (response (handle srv rq).1 = Ok (Redirect "/login") ↔
   currentUser (handle srv rq).1 = None).
Proof.
  intros Hroute. rewrite guarded_route_response by done.
  unfold handle, expose_currentUser. simpl.
  destruct (truthy_id (userId (load_session srv rq).2)) eqn:Hu; [|done].
  split.
  - intros Hr. by apply get_posts_id_not_login_redirect in Hr.
  - intros Hnone. rewrite Hnone in Hu. done.
Qed.

(** X5: a stored session of a user with a non-zero id opens the guarded
    route exactly until its expiry: GET /posts/:id with its cookie is
    redirected to /login iff the request arrives at or after [expiresAt]. *)
Theorem stored_session_served_until_expiry srv rq t e :
  route rq = GET_posts_id →
  cookie rq = Some t →
  sessions srv !! t = Some e →
  entry_userId e ≠ 0%Z →
  (response (handle srv rq).1 = Ok (Redirect "/login") ↔
   (expiresAt e ≤ now rq)%Z) ∧
  ((now rq < expiresAt e)%Z →
   currentUser (handle srv rq).1 = Some (entry_userId e)).
Proof.
  intros Hroute Hc Hl Hid. rewrite guarded_route_response by done.
  unfold handle, expose_currentUser. simpl.
  rewrite (load_session_stored srv rq t e Hc Hl).
  assert (negb (entry_userId e =? 0)%Z = true) as Htruthy.
  { apply negb_true_iff. by apply Z.eqb_neq. }
  case_bool_decide as Hnow; simpl; rewrite ?Htruthy.
  - split; [|done]. split; [|lia].
    intros Hr. by apply get_posts_id_not_login_redirect in Hr.
  - split; [|lia]. split; [lia|done].
Qed.

(** A successful registration or login leaves a session of a user of the
    table under the request's token. *)
Lemma auth_success_session srv rq :
  route rq = POST_register ∨ route rq = POST_login →
  response (handle srv rq).1 = Ok (Redirect "/posts") →
  ∃ u, u ∈ users (srv_db (step srv rq)) ∧
       sessions (step srv rq) !! (load_session srv rq).1 =
         Some {| entry_userId := user_id u;
                 expiresAt := (now rq + maxAge)%Z |}.
Proof.
  intros Hroute. unfold step, handle. simpl.
  destruct Hroute as [Hroute|Hroute].
  - rewrite app_post_register by done.
    destruct (post_register_outcome (env rq) (body_email rq) (body_password rq)
                (init_state srv rq)) as [[msg ->]|[Hrej|Hok]];
      [by eexists|done| |].
    { by destruct Hrej as (e & p & _ & _ & _ & _ & _ & _ & _ & _ & ->). }
    destruct Hok as (e & p & _ & _ & _ & _ & _ & _ & _ & _ & ->). simpl.
    intros _. eexists. split.
    + apply elem_of_app. right. apply list_elem_of_singleton. reflexivity.
    + unfold SessionStore.create. by rewrite lookup_insert_eq.
  - rewrite app_post_login by done.
    destruct (post_login_outcome (env rq) (body_email rq) (body_password rq)
                (init_state srv rq)) as [[msg ->]|Hok]; [by eexists|done|].
    destruct Hok as (e & p & u & _ & _ & Hfind & _ & _ & _ & ->). simpl.
    intros _. exists u. split.
    + by apply find_by_email_Some in Hfind as [_ ?].
    + unfold SessionStore.create. by rewrite lookup_insert_eq.
Qed.

(** X6: on a server that started empty, a successful registration or login
    opens the guarded route: GET /posts/:id with the request's session
    token, sent before the session expires, is not redirected to /login;
    the post handler runs and the views see the logged-in user. *)
Theorem login_opens_guarded_route rqs rq1 rq2 :
  route rq1 = POST_register ∨ route rq1 = POST_login →
  response (handle (run empty_server rqs) rq1).1 = Ok (Redirect "/posts") →
  route rq2 = GET_posts_id →
  cookie rq2 = Some (load_session (run empty_server rqs) rq1).1 →
  (now rq2 < now rq1 + maxAge)%Z →
  let srv1 := step (run empty_server rqs) rq1 in
  response (handle srv1 rq2).1 = (get_posts_id (env rq2) (init_state srv1 rq2)).1 ∧
  response (handle srv1 rq2).1 ≠ Ok (Redirect "/login") ∧
  ∃ u, u ∈ users (srv_db srv1) ∧
       currentUser (handle srv1 rq2).1 = Some (user_id u).
Proof.
  intros Hr1 Hresp Hr2 Hc Hnow srv1.
  destruct (auth_success_session _ _ Hr1 Hresp) as (u & Hu & Hl).
  fold srv1 in Hu, Hl.
  assert (users_ok (srv_db srv1)) as (_ & _ & Hrange & _).
  { apply step_users_ok, run_users_ok. unfold users_ok. simpl.
    repeat split; try apply NoDup_nil_2; [apply Forall_nil_2|lia]. }
  rewrite Forall_forall in Hrange. specialize (Hrange u Hu).
  assert (negb (user_id u =? 0)%Z = true) as Htruthy.
  { apply negb_true_iff, Z.eqb_neq. lia. }
  assert (load_session srv1 rq2 =
            ((load_session (run empty_server rqs) rq1).1,
             {| userId := Some (user_id u) |})) as Hload.
  { rewrite (load_session_stored srv1 rq2 _ _ Hc Hl). simpl.
    by rewrite bool_decide_eq_true_2. }
  assert (response (handle srv1 rq2).1 =
            (get_posts_id (env rq2) (init_state srv1 rq2)).1) as Hserved.
  { rewrite guarded_route_response by done. rewrite Hload. simpl.
    by rewrite Htruthy. }
  split; [done|]. split.
  - rewrite Hserved. apply get_posts_id_not_login_redirect.
  - exists u. split; [done|]. unfold handle, expose_currentUser. simpl.
    rewrite Hload. simpl. by rewrite Htruthy.
Qed.


End GuardedRoute.

Section MoreRoutes.
Context `{Bcrypt}.

Lemma post_register_success env e p st ss :
  session st = Some ss →
  e ≠ "" → (6 ≤ String.length p)%nat →
  findUnique_throws env = false → hash_throws env = false →
  create_throws env = false →
  find_by_email e (users (db st)) = None →
  post_register env (Some e) (Some p) st =
    (Ok (Redirect "/posts"), registered_state env e p st).
Proof.
  intros Hss He Hlen Hfu Hh Hc Hfind. unfold post_register.
  rewrite (falsy_some e He).
  assert (p ≠ "") as Hp by (intros ->; simpl in Hlen; lia).
  rewrite (falsy_some p Hp). cbn [orb js_length].
  apply Nat.ltb_ge in Hlen. rewrite Hlen. unfold_handlers.
  by rewrite Hfu, Hfind, Hh, Hc, Hfind, Hss.
Qed.

(** X8: a registration with a non-empty email and a password of at least 6
    characters, whose store and hasher calls complete, is decided by the
    email alone: if a row has exactly that email the answer is "Email
    already registered" and the table is unchanged; otherwise one row with
    the next id and the password's digest is appended, the request's
    session is stored for that id, an anonymous caller gets the session
    cookie, and the answer is the redirect to /posts. *)
Theorem registration_decided_by_email srv rq e p :
  route rq = POST_register →
  body_email rq = Some e → body_password rq = Some p →
  e ≠ "" → (6 ≤ String.length p)%nat →
  findUnique_throws (env rq) = false → hash_throws (env rq) = false →
  create_throws (env rq) = false →
  (e ∈ user_email <$> users (srv_db srv) →
   response (handle srv rq).1 =
     Ok (Render "auth/register" (LError "Email already registered")) ∧
   srv_db (step srv rq) = srv_db srv) ∧
  (e ∉ user_email <$> users (srv_db srv) →
   response (handle srv rq).1 = Ok (Redirect "/posts") ∧
   srv_db (step srv rq) =
     {| users := users (srv_db srv) ++
          [{| user_id := next_id (srv_db srv); user_email := e;
              user_passwordHash := bcrypt_hash_with p 10 (salt (env rq)) |}];
        next_id := next_id (srv_db srv) + 1 |} ∧
   sessions (step srv rq) !! (load_session srv rq).1 =
     Some {| entry_userId := next_id (srv_db srv);
             expiresAt := (now rq + maxAge)%Z |} ∧
   (userId (load_session srv rq).2 = None →
    set_cookie (handle srv rq).1 = Some (fresh_token rq))).
Proof.
  intros Hroute He Hp Hne Hlen Hfu Hh Hc. split.
  - intros Hin.
    destruct (find_by_email e (users (srv_db srv))) as [u|] eqn:Hfind;
      [|by apply find_by_email_None in Hfind].
    assert (app rq (init_state srv rq) =
              (Ok (Render "auth/register" (LError "Email already registered")),
               init_state srv rq)) as Happ.
    { rewrite app_post_register, He, Hp by done.
      by eapply post_register_duplicate. }
    destruct (handle_unchanged_state _ _ _ Happ) as (Hresp & _ & Hdb & _).
    done.
  - intros Hnotin. apply find_by_email_None in Hnotin.
    assert (app rq (init_state srv rq) =
              (Ok (Redirect "/posts"),
               registered_state (env rq) e p (init_state srv rq))) as Happ.
    { rewrite app_post_register, He, Hp by done.
      by eapply post_register_success. }
    unfold step, handle, session_cookie. rewrite Happ. simpl.
    split; [done|]. split; [done|]. split.
    + unfold SessionStore.create. by rewrite lookup_insert_eq.
    + intros Hanon. rewrite Hanon, (load_session_anonymous _ _ Hanon).
      by rewrite bool_decide_eq_false_2.
Qed.

(** X9: a login with a missing or empty email or password is answered
    with "Email and password required" before any lookup, whatever the
    store would do; nothing changes and no cookie is set. *)
Theorem login_requires_both_fields srv rq :
  route rq = POST_login →
  falsy (body_email rq) = true ∨ falsy (body_password rq) = true →
  response (handle srv rq).1 =
    Ok (Render "auth/login" (LError "Email and password required")) ∧
  set_cookie (handle srv rq).1 = None ∧
  srv_db (step srv rq) = srv_db srv ∧
  (userId (load_session srv rq).2 = None → step srv rq = srv).
Proof.
  intros Hroute Hfalsy. apply handle_unchanged_state.
  rewrite app_post_login by done. unfold post_login.
  by destruct Hfalsy as [-> | ->]; rewrite ?orb_true_r.
Qed.

(** X10: the post routes have no [try]/[catch]: when the post query of
    GET /posts, or of GET /posts/:id for a logged-in caller, rejects, the
    rejection leaves the handler and no response is produced; the user
    table is unchanged. *)
Theorem post_query_rejection_escapes srv rq :
  (route rq = GET_posts ∧ post_findMany (env rq) = Throw) ∨
  (route rq = GET_posts_id ∧
   truthy_id (userId (load_session srv rq).2) = true ∧
   post_findUnique (env rq) = Throw) →
  response (handle srv rq).1 = Throw ∧
  srv_db (step srv rq) = srv_db srv.
Proof.
  intros [[Hroute Hq]|(Hroute & Hu & Hq)].
  - split.
    + rewrite get_posts_unguarded by done. by rewrite Hq.
    + unfold step, handle, app. simpl. rewrite Hroute. unfold_handlers.
      by rewrite Hq.
  - split.
    + rewrite guarded_route_response by done. rewrite Hu.
      unfold_handlers. by rewrite Hq.
    + unfold step, handle, app. simpl. rewrite Hroute.
      rewrite (requireAuth_authenticated _ _ (load_session srv rq).2) by done.
      unfold_handlers. by rewrite Hq.
Qed.

End MoreRoutes.

(** * The posts application without sessions *)

Ltac crud_unfold :=
  unfold Crud.respond, Crud.step, Crud.app, Crud.get_root, Crud.get_posts,
    Crud.get_posts_new, Crud.post_posts, Crud.get_posts_id,
    Crud.get_posts_id_edit, Crud.post_posts_id, Crud.post_posts_id_delete,
    Crud.prisma_post_findMany, Crud.prisma_post_findUnique,
    Crud.prisma_post_create, Crud.prisma_post_update, Crud.prisma_post_delete,
    Crud.q_bind, Crud.q_ret, Crud.q_throw, Crud.redirect, Crud.render,
    Crud.status_send in *.

Section CrudTable.

Lemma crud_find_by_id_Some z rs r :
  Crud.find_by_id z rs = Some r → Crud.row_id r = z ∧ r ∈ rs.
Proof.
  unfold Crud.find_by_id. intros Hf. apply find_some in Hf as [Hin Hb].
  apply bool_decide_eq_true in Hb. split; [done|]. by apply list_elem_of_In.
Qed.

Lemma crud_find_by_id_None z rs :
  Crud.find_by_id z rs = None ↔ z ∉ Crud.row_id <$> rs.
Proof.
  unfold Crud.find_by_id. induction rs as [|w rs IH]; simpl.
  - split; [intros _; apply not_elem_of_nil|done].
  - rewrite not_elem_of_cons. case_bool_decide as Hw.
    + split; [done|]. intros [Hne _]. by destruct Hne.
    + rewrite IH. split; [intros ?; split; [congruence|done]|by intros [_ ?]].
Qed.

Lemma crud_find_by_id_app z rs r :
  Crud.find_by_id z (rs ++ [r]) =
    match Crud.find_by_id z rs with
    | Some x => Some x
    | None => if bool_decide (Crud.row_id r = z) then Some r else None
    end.
Proof.
  unfold Crud.find_by_id. induction rs as [|w rs IH]; simpl; [done|].
  by destruct (bool_decide (Crud.row_id w = z)).
Qed.

Lemma crud_find_by_id_filter z z' rs :
  Crud.find_by_id z' (filter (λ x, Crud.row_id x ≠ z) rs) =
    if bool_decide (z' = z) then None else Crud.find_by_id z' rs.
Proof.
  unfold Crud.find_by_id. induction rs as [|w rs IH]; simpl.
  - by case_bool_decide.
  - rewrite filter_cons. destruct (decide (Crud.row_id w ≠ z)) as [Hw|Hw]; simpl.
    + rewrite IH. repeat case_bool_decide; congruence.
    + rewrite IH. apply dec_stable in Hw.
      repeat case_bool_decide; congruence.
Qed.

Lemma crud_row_id_set_fields title content r :
  Crud.row_id (Crud.set_fields title content r) = Crud.row_id r.
Proof. done. Qed.

Lemma crud_find_by_id_update z z' title content rs :
  Crud.find_by_id z'
    ((λ x, if bool_decide (Crud.row_id x = z)
           then Crud.set_fields title content x else x) <$> rs) =
    if bool_decide (z' = z)
    then Crud.set_fields title content <$> Crud.find_by_id z rs
    else Crud.find_by_id z' rs.
Proof.
  unfold Crud.find_by_id. induction rs as [|w rs IH].
  - simpl. by case_bool_decide.
  - rewrite fmap_cons. cbn [find]. rewrite IH.
    destruct (bool_decide (Crud.row_id w = z)) eqn:Hw.
    + apply bool_decide_eq_true in Hw.
      change (Crud.row_id (Crud.set_fields title content w))
        with (Crud.row_id w).
      repeat case_bool_decide; simpl; congruence.
    + apply bool_decide_eq_false in Hw.
      repeat case_bool_decide; simpl; congruence.
Qed.

(** What a request can do to the table: nothing, append a row, rewrite the
    row of an id, or remove it. *)
Lemma crud_step_cases t rq :
  Crud.step t rq = t ∨
  (∃ ti, Crud.route rq = Crud.POST_posts ∧ Crud.body_title rq = Some ti ∧
     Crud.int4 (Crud.next_post_id t) = true ∧
     Crud.respond t rq = Ok (Redirect "/posts") ∧
     Crud.step t rq =
       {| Crud.rows := Crud.rows t ++
            [{| Crud.row_post :=
                  {| post_id := Crud.next_post_id t; post_title := ti;
                     post_content := Crud.body_content rq |};
                Crud.createdAt := Crud.now rq |}];
          Crud.next_post_id := Crud.next_post_id t + 1 |}) ∨
  (∃ z r, Crud.route rq = Crud.POST_posts_id ∧
     Crud.where_id (Crud.params_id rq) = Some z ∧
     Crud.find_by_id z (Crud.rows t) = Some r ∧
     Crud.respond t rq =
       Ok (Redirect ("/posts/" +:+ Crud.js_to_string (Crud.params_id rq))) ∧
     Crud.step t rq =
       {| Crud.rows :=
            (λ x, if bool_decide (Crud.row_id x = z)
                  then Crud.set_fields (Crud.body_title rq)
                         (Crud.body_content rq) x
                  else x) <$> Crud.rows t;
          Crud.next_post_id := Crud.next_post_id t |}) ∨
  (∃ z r, Crud.route rq = Crud.POST_posts_id_delete ∧
     Crud.where_id (Crud.params_id rq) = Some z ∧
     Crud.find_by_id z (Crud.rows t) = Some r ∧
     Crud.respond t rq = Ok (Redirect "/posts") ∧
     Crud.step t rq =
       {| Crud.rows := filter (λ x, Crud.row_id x ≠ z) (Crud.rows t);
          Crud.next_post_id := Crud.next_post_id t |}).
Proof.
  crud_unfold. destruct (Crud.route rq) eqn:Hroute; simpl.
  - by left.
  - left. by destruct (Crud.query_throws rq).
  - by left.
  - destruct (Crud.query_throws rq); [by left|].
    destruct (Crud.body_title rq) as [ti|] eqn:Hti; [|by left].
    destruct (Crud.int4 (Crud.next_post_id t)) eqn:Hint; [|by left].
    right. left. by exists ti.
  - left. destruct (Crud.query_throws rq); [done|].
    destruct (Crud.where_id _); [|done].
    by destruct (Crud.find_by_id _ _).
  - left. destruct (Crud.query_throws rq); [done|].
    destruct (Crud.where_id _); [|done].
    by destruct (Crud.find_by_id _ _).
  - destruct (Crud.query_throws rq); [by left|].
    destruct (Crud.where_id _) as [z|] eqn:Hz; [|by left].
    destruct (Crud.find_by_id _ _) as [r|] eqn:Hr; [|by left].
    right. right. left. by exists z, r.
  - destruct (Crud.query_throws rq); [by left|].
    destruct (Crud.where_id _) as [z|] eqn:Hz; [|by left].
    destruct (Crud.find_by_id _ _) as [r|] eqn:Hr; [|by left].
    right. right. right. by exists z, r.
Qed.

Lemma crud_step_table_ok t rq :
  Crud.table_ok t → Crud.table_ok (Crud.step t rq).
Proof.
  intros (Hids & Hrange & Hnext).
  destruct (crud_step_cases t rq)
    as [->|[(ti & _ & _ & _ & _ & ->)|[(z & r & _ & _ & _ & _ & ->)
       |(z & r & _ & _ & _ & _ & ->)]]]; [done| | |].
  - unfold Crud.table_ok. simpl. rewrite fmap_app. simpl. repeat split.
    + apply NoDup_app. split; [done|]. split; [|apply NoDup_singleton].
      intros x Hx ->%list_elem_of_singleton.
      apply list_elem_of_fmap in Hx as (u & Hu & Hin).
      rewrite Forall_forall in Hrange. specialize (Hrange u Hin).
      unfold Crud.row_id in *. simpl in *. lia.
    + apply Forall_app. split.
      * eapply Forall_impl; [exact Hrange|]. simpl. intros u Hu. lia.
      * apply Forall_singleton. unfold Crud.row_id. simpl. lia.
    + lia.
  - unfold Crud.table_ok. simpl. repeat split; [| |done].
    + rewrite <- list_fmap_compose.
      erewrite list_fmap_ext; [exact Hids|].
      intros i x _. unfold compose. by destruct (bool_decide _).
    + apply Forall_fmap. eapply Forall_impl; [exact Hrange|].
      intros x Hx. unfold compose. by destruct (bool_decide _).
  - unfold Crud.table_ok. simpl. repeat split; [| |done].
    + eapply sublist_NoDup; [exact Hids|].
      apply fmap_sublist, sublist_filter.
    + apply Forall_forall. intros x [_ Hx]%list_elem_of_filter.
      rewrite Forall_forall in Hrange. by apply Hrange.
Qed.

Lemma crud_run_table_ok t rqs :
  Crud.table_ok t → Crud.table_ok (Crud.run t rqs).
Proof.
  revert t. induction rqs as [|rq rqs IH]; intros t Hok; [done|].
  simpl. by apply IH, crud_step_table_ok.
Qed.

End CrudTable.

Section CrudRoutes.

#[local] Instance crud_newest_first_total : Total Crud.newest_first.
Proof. intros a b. unfold Crud.newest_first. lia. Qed.

#[local] Instance crud_newest_first_trans : Transitive Crud.newest_first.
Proof. intros a b c. unfold Crud.newest_first. lia. Qed.

(** The answer to a request for one post. *)
Lemma crud_show_response t z :
  Crud.respond t (Crud.show_request z) =
    if Crud.int4 z then
      match Crud.find_by_id z (Crud.rows t) with
      | Some r => Ok (Render "posts/show" (LPost (Crud.row_post r)))
      | None => Ok (Send 404 "Post not found")
      end
    else Throw.
Proof.
  crud_unfold. simpl. destruct (Crud.int4 z); [|done].
  by destruct (Crud.find_by_id z (Crud.rows t)).
Qed.

Lemma crud_where_id_Some n z :
  Crud.where_id n = Some z → n = Crud.JsInt z ∧ Crud.int4 z = true.
Proof.
  destruct n as [z'|]; simpl; [|done].
  destruct (Crud.int4 z') eqn:Hz; [|done]. by intros [= <-].
Qed.

(** X11: whatever requests the post application has handled since it
    started with an empty table, the ids of the rows are pairwise distinct
    and lie between 1 and the autoincrement counter. *)
Theorem crud_reachable_table_ok rqs :
  Crud.table_ok (Crud.run Crud.empty_table rqs).
Proof.
  apply crud_run_table_ok. unfold Crud.table_ok. simpl.
  split; [apply NoDup_nil_2|]. split; [apply Forall_nil_2|lia].
Qed.

(** X12: creating a post and reading it back: POST /posts with a title, on
    a well-formed table whose counter is a 32-bit integer, redirects to
    /posts; GET /posts/:id for the counter's value then shows the post
    with that id and the posted title and content, and every other id is
    answered as before. *)
Theorem crud_create_then_show t rq ti :
  Crud.table_ok t →
  Crud.route rq = Crud.POST_posts →
  Crud.body_title rq = Some ti →
  Crud.query_throws rq = false →
  Crud.int4 (Crud.next_post_id t) = true →
  Crud.respond t rq = Ok (Redirect "/posts") ∧
  Crud.respond (Crud.step t rq) (Crud.show_request (Crud.next_post_id t)) =
    Ok (Render "posts/show"
          (LPost {| post_id := Crud.next_post_id t; post_title := ti;
                    post_content := Crud.body_content rq |})) ∧
  (∀ z, z ≠ Crud.next_post_id t →
        Crud.respond (Crud.step t rq) (Crud.show_request z) =
          Crud.respond t (Crud.show_request z)).
Proof.
  intros (Hids & Hrange & Hnext) Hroute Hti Hq Hint.
  assert (Crud.find_by_id (Crud.next_post_id t) (Crud.rows t) = None) as Hnew.
  { apply crud_find_by_id_None. intros (u & Hu & Hin)%list_elem_of_fmap.
    rewrite Forall_forall in Hrange. specialize (Hrange u Hin). lia. }
  assert (Crud.respond t rq = Ok (Redirect "/posts") ∧
          Crud.step t rq =
            {| Crud.rows := Crud.rows t ++
                 [{| Crud.row_post :=
                       {| post_id := Crud.next_post_id t; post_title := ti;
                          post_content := Crud.body_content rq |};
                     Crud.createdAt := Crud.now rq |}];
               Crud.next_post_id := Crud.next_post_id t + 1 |})
    as [Hresp Hstep].
  { crud_unfold. rewrite Hroute. simpl. by rewrite Hq, Hti, Hint. }
  split; [done|]. rewrite Hstep. split.
  - rewrite crud_show_response, Hint. simpl.
    rewrite crud_find_by_id_app, Hnew. unfold Crud.row_id. simpl.
    by rewrite bool_decide_eq_true_2.
  - intros z Hz. rewrite !crud_show_response. simpl.
    rewrite crud_find_by_id_app. unfold Crud.row_id at 2. simpl.
    rewrite (bool_decide_eq_false_2 (Crud.next_post_id t = z)) by done.
    by destruct (Crud.find_by_id z (Crud.rows t)).
Qed.

(** X13: GET /posts renders the index view with exactly the posts of the
    table (a permutation of the rows), newest first: no post comes before
    a post created later; the table is unchanged. *)
Theorem crud_list_newest_first t rq :
  Crud.route rq = Crud.GET_posts →
  Crud.query_throws rq = false →
  ∃ sorted,
    Crud.respond t rq =
      Ok (Render "posts/index" (LPosts (Crud.row_post <$> sorted))) ∧
    sorted ≡ₚ Crud.rows t ∧
    StronglySorted Crud.newest_first sorted ∧
    Crud.step t rq = t.
Proof.
  intros Hroute Hq. exists (merge_sort Crud.newest_first (Crud.rows t)).
  split; [|split; [|split]].
  - crud_unfold. rewrite Hroute. simpl. by rewrite Hq.
  - apply merge_sort_Permutation.
  - apply StronglySorted_merge_sort; apply _.
  - crud_unfold. rewrite Hroute. simpl. by rewrite Hq.
Qed.

(** X14: deleting a post: POST /posts/:id/delete for the id of a row
    redirects to /posts; afterwards GET /posts/:id for that id answers 404
    "Post not found" and every other id is answered as before. *)
Theorem crud_delete_then_show t rq z r :
  Crud.route rq = Crud.POST_posts_id_delete →
  Crud.where_id (Crud.params_id rq) = Some z →
  Crud.query_throws rq = false →
  Crud.find_by_id z (Crud.rows t) = Some r →
  Crud.respond t rq = Ok (Redirect "/posts") ∧
  Crud.respond (Crud.step t rq) (Crud.show_request z) =
    Ok (Send 404 "Post not found") ∧
  (∀ z', z' ≠ z →
         Crud.respond (Crud.step t rq) (Crud.show_request z') =
           Crud.respond t (Crud.show_request z')).
Proof.
  intros Hroute Hz Hq Hfind.
  destruct (crud_where_id_Some _ _ Hz) as [_ Hint].
  assert (Crud.respond t rq = Ok (Redirect "/posts") ∧
          Crud.step t rq =
            {| Crud.rows := filter (λ x, Crud.row_id x ≠ z) (Crud.rows t);
               Crud.next_post_id := Crud.next_post_id t |})
    as [Hresp Hstep].
  { crud_unfold. rewrite Hroute. simpl. by rewrite Hq, Hz, Hfind. }
  split; [done|]. rewrite Hstep. split.
  - rewrite crud_show_response, Hint. simpl.
    rewrite crud_find_by_id_filter. by rewrite bool_decide_eq_true_2.
  - intros z' Hz'. rewrite !crud_show_response. simpl.
    rewrite crud_find_by_id_filter. by rewrite bool_decide_eq_false_2.
Qed.

(** X15: updating a post: POST /posts/:id for the id of a row redirects to
    the post's own page /posts/<id>; afterwards GET /posts/:id shows the
    row with the same id, the posted title and content, a field absent
    from the form keeping its value; every other id is answered as before
    and the counter is unchanged. *)
Theorem crud_update_then_show t rq z r :
  Crud.route rq = Crud.POST_posts_id →
  Crud.where_id (Crud.params_id rq) = Some z →
  Crud.query_throws rq = false →
  Crud.find_by_id z (Crud.rows t) = Some r →
  Crud.respond t rq = Ok (Redirect ("/posts/" +:+ pretty z)) ∧
  Crud.respond (Crud.step t rq) (Crud.show_request z) =
    Ok (Render "posts/show"
          (LPost {| post_id := z;
                    post_title := default (post_title (Crud.row_post r))
                                    (Crud.body_title rq);
                    post_content :=
                      match Crud.body_content rq with
                      | Some c => Some c
                      | None => post_content (Crud.row_post r)
                      end |})) ∧
  (∀ z', z' ≠ z →
         Crud.respond (Crud.step t rq) (Crud.show_request z') =
           Crud.respond t (Crud.show_request z')) ∧
  Crud.next_post_id (Crud.step t rq) = Crud.next_post_id t.
Proof.
  intros Hroute Hz Hq Hfind.
  destruct (crud_where_id_Some _ _ Hz) as [Hn Hint].
  destruct (crud_find_by_id_Some _ _ _ Hfind) as [Hid _].
  assert (Crud.respond t rq = Ok (Redirect ("/posts/" +:+ pretty z)) ∧
          Crud.step t rq =
            {| Crud.rows :=
                 (λ x, if bool_decide (Crud.row_id x = z)
                       then Crud.set_fields (Crud.body_title rq)
                              (Crud.body_content rq) x
                       else x) <$> Crud.rows t;
               Crud.next_post_id := Crud.next_post_id t |})
    as [Hresp Hstep].
  { crud_unfold. rewrite Hroute. simpl. rewrite Hq, Hz, Hfind. simpl.
    by rewrite Hn. }
  split; [done|]. rewrite Hstep. split; [|split; [|done]].
  - rewrite crud_show_response, Hint. simpl.
    rewrite crud_find_by_id_update, bool_decide_eq_true_2 by done.
    rewrite Hfind. simpl. unfold Crud.set_fields. rewrite Hid.
    by destruct (Crud.body_title rq).
  - intros z' Hz'. rewrite !crud_show_response. simpl.
    rewrite crud_find_by_id_update. by rewrite bool_decide_eq_false_2.
Qed.

(** X16: an update or a delete for an id that no row has is rejected by
    the store and, the handlers having no [try]/[catch], is not answered;
    the table is unchanged.  Reading such an id is answered with 404. *)
Theorem crud_write_to_missing_id_escapes t rq z :
  Crud.route rq = Crud.POST_posts_id ∨
    Crud.route rq = Crud.POST_posts_id_delete →
  Crud.where_id (Crud.params_id rq) = Some z →
  Crud.find_by_id z (Crud.rows t) = None →
  Crud.respond t rq = Throw ∧
  Crud.step t rq = t ∧
  Crud.respond t (Crud.show_request z) = Ok (Send 404 "Post not found").
Proof.
  intros Hroute Hz Hfind.
  destruct (crud_where_id_Some _ _ Hz) as [_ Hint].
  split; [|split].
  - crud_unfold. destruct Hroute as [-> | ->]; simpl;
      destruct (Crud.query_throws rq); try done; by rewrite Hz, Hfind.
  - crud_unfold. destruct Hroute as [-> | ->]; simpl;
      destruct (Crud.query_throws rq); try done; by rewrite Hz, Hfind.
  - by rewrite crud_show_response, Hint, Hfind.
Qed.

(** X17: ids are not reused: once a post has been deleted on a well-formed
    table, GET /posts/:id for its id answers 404 "Post not found" after
    every later sequence of requests. *)
Theorem crud_deleted_id_stays_gone t rq z r rqs :
  Crud.table_ok t →
  Crud.route rq = Crud.POST_posts_id_delete →
  Crud.where_id (Crud.params_id rq) = Some z →
  Crud.query_throws rq = false →
  Crud.find_by_id z (Crud.rows t) = Some r →
  Crud.respond (Crud.run (Crud.step t rq) rqs) (Crud.show_request z) =
    Ok (Send 404 "Post not found").
Proof.
  intros (Hids & Hrange & Hnext) Hroute Hz Hq Hfind.
  destruct (crud_where_id_Some _ _ Hz) as [_ Hint].
  destruct (crud_find_by_id_Some _ _ _ Hfind) as [Hid Hin].
  assert (z < Crud.next_post_id t)%Z as Hlt.
  { rewrite Forall_forall in Hrange. specialize (Hrange r Hin). lia. }
  assert (∀ t', Crud.find_by_id z (Crud.rows t') = None →
                (z < Crud.next_post_id t')%Z →
                Crud.find_by_id z (Crud.rows (Crud.run t' rqs)) = None)
    as Hgone.
  { induction rqs as [|rq' rqs IH]; intros t' Hnone Hlt'; [done|].
    simpl. destruct (crud_step_cases t' rq')
      as [->|[(ti & _ & _ & _ & _ & ->)|[(z0 & r0 & _ & _ & _ & _ & ->)
         |(z0 & r0 & _ & _ & _ & _ & ->)]]]; apply IH; simpl; try done.
    - rewrite crud_find_by_id_app, Hnone. unfold Crud.row_id. simpl.
      rewrite bool_decide_eq_false_2; [done|lia].
    - lia.
    - rewrite crud_find_by_id_update. case_bool_decide as Hz0; [|done].
      subst z0. by rewrite Hnone.
    - rewrite crud_find_by_id_filter. by case_bool_decide. }
  rewrite crud_show_response, Hint, Hgone; [done| |].
  - crud_unfold. rewrite Hroute. simpl. rewrite Hq, Hz, Hfind. simpl.
    rewrite crud_find_by_id_filter. by rewrite bool_decide_eq_true_2.
  - crud_unfold. rewrite Hroute. simpl. by rewrite Hq, Hz, Hfind.
Qed.

(** X18: a request that is not answered has changed nothing, and the GET
    routes never change the table. *)
Theorem crud_only_answered_posts_write t rq :
  (Crud.respond t rq = Throw → Crud.step t rq = t) ∧
  (Crud.route rq ≠ Crud.POST_posts →
   Crud.route rq ≠ Crud.POST_posts_id →
   Crud.route rq ≠ Crud.POST_posts_id_delete →
   Crud.step t rq = t).
Proof.
  destruct (crud_step_cases t rq)
    as [Hsame|[(ti & Hr & _ & _ & Hresp & _)|[(z & r & Hr & _ & _ & Hresp & _)
       |(z & r & Hr & _ & _ & Hresp & _)]]]; [done| | |];
    (split; [by rewrite Hresp|by rewrite Hr]).
Qed.

End CrudRoutes.

(** * The further properties on concrete requests *)

Lemma alice_server_emails :
  user_email <$> users (srv_db alice_server) = ["alice@example.com"].
Proof. reflexivity. Qed.

Lemma crud_demo_table_ok : Crud.table_ok crud_demo_table.
Proof.
  apply crud_run_table_ok. unfold Crud.table_ok. simpl.
  split; [apply NoDup_nil_2|]. split; [apply Forall_nil_2|lia].
Qed.

(** Alice logs out and logs in again: the table is as before. *)
Lemma user_rows_are_kept_witness :
  srv_db (@run demo_bcrypt alice_server
            [with_cookie "t1" 10 "t2" (bare_request POST_logout);
             form_request POST_login "alice@example.com" "secret1"])
  = srv_db alice_server.
Proof.
  apply (@user_rows_are_kept demo_bcrypt alice_server).
  repeat constructor; discriminate.
Defined.

(** A request without cookie to the guarded route. *)
Lemma guard_agrees_with_currentUser_witness :
  response (@handle demo_bcrypt alice_server (bare_request GET_posts_id)).1
  = Ok (Redirect "/login").
Proof.
  apply (@guard_agrees_with_currentUser demo_bcrypt alice_server
           (bare_request GET_posts_id)); reflexivity.
Defined.

(** Alice's cookie at the moment her session expires. *)
Lemma stored_session_served_until_expiry_witness :
  response (@handle demo_bcrypt alice_server
              (with_cookie "t1" 604800000 "t2" (bare_request GET_posts_id))).1
  = Ok (Redirect "/login").
Proof.
  apply (@stored_session_served_until_expiry demo_bcrypt alice_server
           (with_cookie "t1" 604800000 "t2" (bare_request GET_posts_id))
           "t1" {| entry_userId := 1; expiresAt := 604800000 |});
    try reflexivity; try discriminate; try (simpl; lia).
Defined.

(** Alice registers, logs in, and reads a post with her cookie. *)
Lemma login_opens_guarded_route_witness :
  response
    (@handle demo_bcrypt
       (@step demo_bcrypt
          (@run demo_bcrypt empty_server
             [form_request POST_register "alice@example.com" "secret1"])
          (form_request POST_login "alice@example.com" "secret1"))
       (with_cookie "t1" 10 "t2" (bare_request GET_posts_id))).1
  ≠ Ok (Redirect "/login").
Proof.
  apply (@login_opens_guarded_route demo_bcrypt
           [form_request POST_register "alice@example.com" "secret1"]
           (form_request POST_login "alice@example.com" "secret1")
           (with_cookie "t1" 10 "t2" (bare_request GET_posts_id)));
    try reflexivity.
  right. reflexivity.
Defined.


(** Bob registers after alice. *)
Lemma registration_decided_by_email_witness :
  response (@handle demo_bcrypt alice_server
              (with_cookie "t9" 5 "t2"
                 (form_request POST_register "bob@example.com" "hunter22"))).1
    = Ok (Redirect "/posts") ∧
  response (@handle demo_bcrypt alice_server
              (with_cookie "t9" 5 "t2"
                 (form_request POST_register "alice@example.com" "hunter22"))).1
    = Ok (Render "auth/register" (LError "Email already registered")).
Proof.
  split.
  - apply (@registration_decided_by_email demo_bcrypt alice_server
             (with_cookie "t9" 5 "t2"
                (form_request POST_register "bob@example.com" "hunter22"))
             "bob@example.com" "hunter22");
      try reflexivity; try discriminate; try (simpl; lia).
    rewrite alice_server_emails. intros Hin%list_elem_of_singleton.
    discriminate.
  - apply (@registration_decided_by_email demo_bcrypt alice_server
             (with_cookie "t9" 5 "t2"
                (form_request POST_register "alice@example.com" "hunter22"))
             "alice@example.com" "hunter22");
      try reflexivity; try discriminate; try (simpl; lia).
    rewrite alice_server_emails. by apply list_elem_of_singleton.
Defined.

(** A login with an empty email. *)
Lemma login_requires_both_fields_witness :
  response (@handle demo_bcrypt alice_server
              (form_request POST_login "" "secret1")).1
  = Ok (Render "auth/login" (LError "Email and password required")).
Proof.
  apply (@login_requires_both_fields demo_bcrypt alice_server
           (form_request POST_login "" "secret1")); [reflexivity|].
  left. reflexivity.
Defined.

(** The post list while the post query rejects. *)
Lemma post_query_rejection_escapes_witness :
  response (@handle demo_bcrypt alice_server
              (with_failing_posts (bare_request GET_posts))).1 = Throw ∧
  response (@handle demo_bcrypt alice_server
              (with_failing_posts
                 (with_cookie "t1" 10 "t2" (bare_request GET_posts_id)))).1
    = Throw.
Proof.
  split.
  - apply (@post_query_rejection_escapes demo_bcrypt alice_server
             (with_failing_posts (bare_request GET_posts))).
    left. split; reflexivity.
  - apply (@post_query_rejection_escapes demo_bcrypt alice_server
             (with_failing_posts
                (with_cookie "t1" 10 "t2" (bare_request GET_posts_id)))).
    right. repeat split; reflexivity.
Defined.

(** A fourth post is created and read back. *)
Lemma crud_create_then_show_witness :
  Crud.respond
    (Crud.step crud_demo_table
       (Crud.form_request Crud.POST_posts Crud.JsNaN "fourth" "d" 30))
    (Crud.show_request 4)
  = Ok (Render "posts/show"
          (LPost {| post_id := 4; post_title := "fourth";
                    post_content := Some "d" |})).
Proof.
  apply (crud_create_then_show crud_demo_table
           (Crud.form_request Crud.POST_posts Crud.JsNaN "fourth" "d" 30)
           "fourth"); try reflexivity.
  apply crud_demo_table_ok.
Defined.

(** The list of the three posts. *)
Lemma crud_list_newest_first_witness :
  ∃ sorted,
    Crud.respond crud_demo_table
      (Crud.form_request Crud.GET_posts Crud.JsNaN "" "" 40)
    = Ok (Render "posts/index" (LPosts (Crud.row_post <$> sorted))) ∧
    StronglySorted Crud.newest_first sorted.
Proof.
  destruct (crud_list_newest_first crud_demo_table
              (Crud.form_request Crud.GET_posts Crud.JsNaN "" "" 40))
    as (sorted & Hresp & _ & Hsorted & _); [reflexivity|reflexivity|].
  exists sorted. split; [exact Hresp|exact Hsorted].
Defined.

(** The second post is deleted. *)
Lemma crud_delete_then_show_witness :
  Crud.respond
    (Crud.step crud_demo_table
       (Crud.form_request Crud.POST_posts_id_delete (Crud.JsInt 2) "" "" 40))
    (Crud.show_request 2)
  = Ok (Send 404 "Post not found").
Proof.
  apply (crud_delete_then_show crud_demo_table
           (Crud.form_request Crud.POST_posts_id_delete (Crud.JsInt 2) "" "" 40)
           2
           {| Crud.row_post := {| post_id := 2; post_title := "second";
                                  post_content := Some "b" |};
              Crud.createdAt := 20 |});
    reflexivity.
Defined.

(** The second post gets a new title and content. *)
Lemma crud_update_then_show_witness :
  Crud.respond crud_demo_table
    (Crud.form_request Crud.POST_posts_id (Crud.JsInt 2) "zwei" "bb" 40)
    = Ok (Redirect "/posts/2") ∧
  Crud.respond
    (Crud.step crud_demo_table
       (Crud.form_request Crud.POST_posts_id (Crud.JsInt 2) "zwei" "bb" 40))
    (Crud.show_request 2)
    = Ok (Render "posts/show"
            (LPost {| post_id := 2; post_title := "zwei";
                      post_content := Some "bb" |})).
Proof.
  destruct (crud_update_then_show crud_demo_table
              (Crud.form_request Crud.POST_posts_id (Crud.JsInt 2) "zwei" "bb" 40)
              2
              {| Crud.row_post := {| post_id := 2; post_title := "second";
                                     post_content := Some "b" |};
                 Crud.createdAt := 20 |})
    as (Hresp & Hshow & _); try reflexivity.
  split; [exact Hresp|exact Hshow].
Defined.

(** An update for an id that no post has. *)
Lemma crud_write_to_missing_id_escapes_witness :
  Crud.respond crud_demo_table
    (Crud.form_request Crud.POST_posts_id (Crud.JsInt 9) "neun" "i" 40)
  = Throw.
Proof.
  apply (crud_write_to_missing_id_escapes crud_demo_table
           (Crud.form_request Crud.POST_posts_id (Crud.JsInt 9) "neun" "i" 40)
           9); try reflexivity.
  left. reflexivity.
Defined.

(** The second post is deleted and two posts are created afterwards. *)
Lemma crud_deleted_id_stays_gone_witness :
  Crud.respond
    (Crud.run
       (Crud.step crud_demo_table
          (Crud.form_request Crud.POST_posts_id_delete (Crud.JsInt 2) "" "" 40))
       [Crud.form_request Crud.POST_posts Crud.JsNaN "fourth" "d" 50;
        Crud.form_request Crud.POST_posts Crud.JsNaN "fifth" "e" 60])
    (Crud.show_request 2)
  = Ok (Send 404 "Post not found").
Proof.
  apply (crud_deleted_id_stays_gone crud_demo_table
           (Crud.form_request Crud.POST_posts_id_delete (Crud.JsInt 2) "" "" 40)
           2
           {| Crud.row_post := {| post_id := 2; post_title := "second";
                                  post_content := Some "b" |};
              Crud.createdAt := 20 |});
    try reflexivity.
  apply crud_demo_table_ok.
Defined.

(** Reading a post leaves the table as it is. *)
Lemma crud_only_answered_posts_write_witness :
  Crud.step crud_demo_table (Crud.show_request 2) = crud_demo_table.
Proof.
  apply (crud_only_answered_posts_write crud_demo_table (Crud.show_request 2));
    discriminate.
Defined.

(** A create that the database rejects after drawing the id leaves no row,
    and the id is not given out again: the next registration gets id 2. *)
Lemma rejected_create_keeps_the_drawn_id :
  srv_db (@run demo_bcrypt empty_server
            [with_failing_create
               (form_request POST_register "alice@example.com" "secret1");
             form_request POST_register "alice@example.com" "secret1"])
  = {| users := [{| user_id := 2; user_email := "alice@example.com";
                    user_passwordHash := "ssecret1" |}];
       next_id := 3 |}.
Proof. reflexivity. Qed.
